(** * DataTable: pagination, page-number window and dual layout

    A shallow embedding of [src/components/admin/shared/DataTable.tsx].

    Numbers are modelled as [Z]: every number the component computes with
    (array lengths, page numbers, a positive integer [pageSize]) is a small
    integer, on which JavaScript's double arithmetic is exact.  Rows are
    JavaScript objects, modelled as finite maps from property names to
    primitive values.  The React state cell [currentPage] is threaded
    explicitly: a call of the component body takes the state it starts with
    and returns the tree it built together with the state left by the
    updates it queued; a render pass re-runs the body while it queues a
    change, as React does. *)

From Stdlib Require Import ZArith Lia.
From stdpp Require Import base numbers list list_numbers sorting strings pretty
  gmap.

Local Open Scope Z_scope.

(** ** The JavaScript built-ins the component calls *)

Module JS.

(** [Number.MAX_SAFE_INTEGER] *)
Definition MAX_SAFE_INTEGER : Z := 2 ^ 53 - 1.

(** [Number.isSafeInteger(n)], for an integer [n]. *)
Definition isSafeInteger (n : Z) : bool :=
  (- MAX_SAFE_INTEGER <=? n) && (n <=? MAX_SAFE_INTEGER).

(** The values a row property can hold here.  A number is a safe integer,
    NaN or an infinity; a bigint is any integer.  Numbers with a fraction
    or beyond the safe integers, objects and symbols are left out: their
    text needs the shortest-digits printer or the object's own
    [toString]. *)
Inductive value : Type :=
| VUndefined
| VNull
| VBool (b : bool)
| VNum (n : Z) (safe : Is_true (isSafeInteger n))
| VNaN
| VInfinity (negative : bool)
| VBigInt (n : Z)
| VStr (s : string).

(** [String(v)]: the standard coercion to text.  A safe integer and a
    bigint print their exact decimal digits, with a minus sign below
    zero. *)
Definition ToString (v : value) : string :=
  match v with
  | VUndefined => "undefined"
  | VNull => "null"
  | VBool true => "true"
  | VBool false => "false"
  | VNum n _ => pretty n
  | VNaN => "NaN"
  | VInfinity false => "Infinity"
  | VInfinity true => "-Infinity"
  | VBigInt n => pretty n
  | VStr s => s
  end.

(** [row[k]]: reading a property that the object does not carry gives
    [undefined]. *)
Definition get (row : gmap string value) (k : string) : value :=
  default VUndefined (row !! k).

(** [Math.ceil(a / b)] on integers, for [b] other than zero.  With
    [b = 0] JavaScript gives [Infinity] or [NaN], which [Z] does not hold:
    the value taken here for [b = 0] is not the code's.  The statements
    below exclude a page size of zero, except where the code's check
    [currentPage > totalPages && totalPages > 0] fails at [Infinity] and
    [NaN] just as it fails here. *)
Definition ceil_div (a b : Z) : Z := - ((- a) / b).

(** The index normalisation of [Array.prototype.slice]: a negative index
    counts from the end, and both ends are clamped to the array. *)
Definition rel_index (len i : Z) : Z :=
  if i <? 0 then Z.max (len + i) 0 else Z.min i len.

(** [arr.slice(start, stop)]. *)
Definition slice {A : Type} (arr : list A) (start stop : Z) : list A :=
  let len := Z.of_nat (length arr) in
  let k := rel_index len start in
  let final := rel_index len stop in
  take (Z.to_nat (Z.max (final - k) 0)) (drop (Z.to_nat k) arr).

End JS.

(** ** The page-number window *)

(** An entry of the [(number | string)[]] that [getPageNumbers] builds. *)
Inductive NumOrStr : Type :=
| Num (n : Z)
| Str (s : string).

#[global] Instance NumOrStr_eq_dec : EqDecision NumOrStr.
Proof. solve_decision. Defined.

Definition ellipsis : NumOrStr := Str "...".

(** [for (let i = lo; i <= hi; i++) pages.push(i)], run for at most [fuel]
    iterations from [i]. *)
Fixpoint for_push (fuel : nat) (i hi : Z) (pages : list NumOrStr)
  : list NumOrStr :=
  match fuel with
  | O => pages
  | S fuel' =>
      if i <=? hi then for_push fuel' (i + 1) hi (pages ++ [Num i])
      else pages
  end.

(** The loop leaves after [hi - lo + 1] iterations, so that much fuel runs
    it to completion (lemma [for_push_complete]). *)
Definition push_range (lo hi : Z) (pages : list NumOrStr) : list NumOrStr :=
  for_push (Z.to_nat (hi - lo + 1)) lo hi pages.

Definition push (x : NumOrStr) (pages : list NumOrStr) : list NumOrStr :=
  pages ++ [x].

Definition maxVisiblePages : Z := 5.

Definition getPageNumbers (currentPage totalPages : Z) : list NumOrStr :=
  let pages : list NumOrStr := [] in
  if totalPages <=? maxVisiblePages then
    push_range 1 totalPages pages
  else if currentPage <=? 3 then
    let pages := push_range 1 4 pages in
    let pages := push ellipsis pages in
    push (Num totalPages) pages
  else if currentPage >=? totalPages - 2 then
    let pages := push (Num 1) pages in
    let pages := push ellipsis pages in
    push_range (totalPages - 3) totalPages pages
  else
    let pages := push (Num 1) pages in
    let pages := push ellipsis pages in
    let pages := push_range (currentPage - 1) (currentPage + 1) pages in
    let pages := push ellipsis pages in
    push (Num totalPages) pages.

(** How many entries of a window are the ellipsis string. *)
Definition count_ellipsis (pages : list NumOrStr) : nat :=
  length (filter (λ p, p = ellipsis) pages).

(** The page numbers of a window, in order. *)
Definition page_numbers (pages : list NumOrStr) : list Z :=
  omap (λ p, match p with Num n => Some n | Str _ => None end) pages.

(** Two neighbouring entries that are both the ellipsis string. *)
Fixpoint adjacent_ellipsis (pages : list NumOrStr) : bool :=
  match pages with
  | p :: (q :: _) as rest =>
      (bool_decide (p = ellipsis) && bool_decide (q = ellipsis))
      || adjacent_ellipsis rest
  | _ => false
  end.

(** ** Props, columns and rows *)

(** A row is an object; [id] is one of its properties. *)
Abbreviation Row := (gmap string JS.value).

(** What an accessor function may return, and what the component builds:
    text or an element with children. *)
#[warnings="-register-all"]
Inductive ReactNode : Type :=
| RText (s : string)
| RElement (tag : string) (children : list ReactNode).

(** [accessor: keyof T | ((row: T) => ReactNode)] *)
Inductive Accessor : Type :=
| Field (k : string)
| Fn (f : Row → ReactNode).

(** [interface Column<T>]; an optional boolean left out is falsy. *)
Record Column : Type := {
  header : string;
  accessor : Accessor;
  className : option string;
  hideOnMobile : bool;
  mobileHighlight : bool;
}.

(** [interface DataTableProps<T>], after the defaults of the parameter
    list have been filled in. *)
Record DataTableProps : Type := {
  columns : list Column;
  data : list Row;
  loading : bool;
  emptyMessage : string;
  onRowClick : option (Row → unit);
  mobileCardView : bool;
  pagination : bool;
  pageSize : Z;
}.

(** The defaults of the parameter list. *)
Definition withDefaults (cols : list Column) (rows : list Row)
  : DataTableProps :=
  {| columns := cols; data := rows; loading := false;
     emptyMessage := "No data available"; onRowClick := None;
     mobileCardView := true; pagination := false; pageSize := 10 |}.

(** ** The tree a render builds *)

(** A region of a card, as the [<div>] that holds it. *)
Inductive CardRegion : Type :=
| HighlightRegion (cells : list ReactNode)
| GridRegion (cells : list (string * ReactNode))
| ActionsRegion (cell : ReactNode).

(** The row-click callback belongs to the caller; of it the tree keeps
    only the class that its presence adds to a card or a body row.  The
    regions of a card are its children, in document order. *)
Record Card : Type := {
  card_key : JS.value;
  card_className : string;
  card_children : list CardRegion;
}.

Record Th : Type := { th_className : string; th_content : string }.
Record Td : Type := { td_className : string; td_content : ReactNode }.
Record Tr : Type := {
  tr_key : JS.value;
  tr_className : string;
  tr_cells : list Td;
}.
Record Table : Type := {
  table_className : string;
  thead : list Th;
  tbody : list Tr;
}.

(** A [<button>]: [onClick] is the updater handed to [setCurrentPage]. *)
Record Button : Type := { disabled : bool; onClick : Z → Z }.

Inductive PageItem : Type :=
| EllipsisSpan (index : nat)
| PageButton (page : Z) (active : bool) (onClick : Z → Z).

Record Controls : Type := {
  showing_from : Z;
  showing_to : Z;
  showing_of : Z;
  first_button : Button;
  prev_button : Button;
  page_items : list PageItem;
  next_button : Button;
  last_button : Button;
}.

Inductive View : Type :=
| VLoading
| VEmpty (message : string)
| VLayout (mobile : option (list Card)) (desktop : Table)
          (controls : option Controls).

(** ** The component body *)

Section Body.

Variable props : DataTableProps.
(** The value [useState] hands to this render. *)
Variable currentPage : Z.

Definition dataLength : Z := Z.of_nat (length (data props)).

Definition totalPages : Z := JS.ceil_div dataLength (pageSize props).
Definition startIndex : Z := (currentPage - 1) * pageSize props.
Definition endIndex : Z := startIndex + pageSize props.
Definition paginatedData : list Row :=
  if pagination props then JS.slice (data props) startIndex endIndex
  else data props.

Definition getCellContent (row : Row) (column : Column) : ReactNode :=
  match accessor column with
  | Fn f => f row
  | Field k => RText (JS.ToString (JS.get row k))
  end.

Definition isActions (col : Column) : bool :=
  String.eqb (header col) "Actions".

(** The three column selections of the card. *)
Definition highlightColumns : list Column :=
  List.filter (λ col, mobileHighlight col) (columns props).
Definition gridColumns : list Column :=
  List.filter (λ col, negb (mobileHighlight col) && negb (isActions col))
              (columns props).
Definition actionsColumn : option Column :=
  if existsb isActions (columns props)
  then List.find isActions (columns props)
  else None.

(** [cond && <div>...</div>]: the child is there when [cond] holds. *)
Definition when {A : Type} (child : option A) : list A := option_list child.

Definition MobileCardView : list Card :=
  (λ row,
    {| card_key := JS.get row "id";
       card_className :=
         "bg-white rounded-xl shadow-sm border border-gray-100 p-4 " +:+
         match onRowClick props with
         | Some _ => "cursor-pointer active:bg-gray-50"
         | None => ""
         end;
       card_children :=
         [ HighlightRegion (getCellContent row <$> highlightColumns);
           GridRegion
             ((λ column, (header column, getCellContent row column))
                <$> gridColumns) ]
         ++ when (ActionsRegion <$> (getCellContent row <$> actionsColumn))
    |})
  <$> paginatedData.

Definition hiddenClass (column : Column) : string :=
  if hideOnMobile column then "hidden md:table-cell" else "".

Definition DesktopTableView : Table :=
  {| table_className :=
       "bg-white rounded-xl shadow-sm border border-gray-100 overflow-hidden "
       +:+ (if mobileCardView props then "hidden md:block" else "");
     thead :=
       (λ column,
         {| th_className :=
              "px-3 sm:px-4 py-3 text-left text-xs sm:text-sm font-medium text-navy "
              +:+ default "" (className column) +:+ " "
              +:+ hiddenClass column;
            th_content := header column |})
       <$> columns props;
     tbody :=
       (λ row,
         {| tr_key := JS.get row "id";
            tr_className :=
              "hover:bg-gray-50 transition-colors " +:+
              match onRowClick props with
              | Some _ => "cursor-pointer"
              | None => ""
              end;
            tr_cells :=
              (λ column,
                {| td_className :=
                     "px-3 sm:px-4 py-3 text-xs sm:text-sm text-black "
                     +:+ default "" (className column) +:+ " "
                     +:+ hiddenClass column;
                   td_content := getCellContent row column |})
              <$> columns props |})
       <$> paginatedData |}.

(** One entry of [getPageNumbers().map(...)]: the ellipsis string becomes
    a [<span>], a number a button that jumps to it.  The array holds no
    other string. *)
Definition pageItem (index : nat) (page : NumOrStr) : PageItem :=
  if bool_decide (page = ellipsis) then EllipsisSpan index
  else match page with
       | Num n => PageButton n (bool_decide (currentPage = n)) (λ _, n)
       | Str _ => EllipsisSpan index
       end.

Definition PaginationControls : option Controls :=
  if negb (pagination props) || (totalPages <=? 1) then None
  else Some
    {| showing_from := startIndex + 1;
       showing_to := Z.min endIndex dataLength;
       showing_of := dataLength;
       first_button :=
         {| disabled := currentPage =? 1; onClick := λ _, 1 |};
       prev_button :=
         {| disabled := currentPage =? 1;
            onClick := λ prev, Z.max 1 (prev - 1) |};
       page_items := imap pageItem (getPageNumbers currentPage totalPages);
       next_button :=
         {| disabled := currentPage =? totalPages;
            onClick := λ prev, Z.min totalPages (prev + 1) |};
       last_button :=
         {| disabled := currentPage =? totalPages;
            onClick := λ _, totalPages |} |}.

(** The update the body queues while rendering: back to page 1 when the
    page it was handed lies beyond the last one. *)
Definition queuedPage : Z :=
  if (currentPage >? totalPages) && (totalPages >? 0) then 1
  else currentPage.

Definition view : View :=
  if loading props then VLoading
  else if dataLength =? 0 then VEmpty (emptyMessage props)
  else VLayout (if mobileCardView props then Some MobileCardView else None)
               DesktopTableView
               PaginationControls.

(** One call of the component: the slice and the tree are computed from
    the page handed in; the state returned is the one the next render
    starts with. *)
Definition render : View * Z := (view, queuedPage).

End Body.

(** ** Reading a tree *)

Definition view_controls (v : View) : option Controls :=
  match v with VLayout _ _ c => c | _ => None end.

Definition view_table (v : View) : option Table :=
  match v with VLayout _ t _ => Some t | _ => None end.

Definition view_cards (v : View) : option (list Card) :=
  match v with VLayout m _ _ => m | _ => None end.

(** The cells of the highlighted regions of a card, in order. *)
Definition card_highlight (card : Card) : list ReactNode :=
  concat (omap (λ region, match region with
                          | HighlightRegion cells => Some cells
                          | _ => None
                          end) (card_children card)).

(** The label/value pairs of the grid regions of a card, in order. *)
Definition card_grid (card : Card) : list (string * ReactNode) :=
  concat (omap (λ region, match region with
                          | GridRegion cells => Some cells
                          | _ => None
                          end) (card_children card)).

(** The cell of the first actions region of a card. *)
Definition card_actions (card : Card) : option ReactNode :=
  head (omap (λ region, match region with
                        | ActionsRegion cell => Some cell
                        | _ => None
                        end) (card_children card)).

(** The keys of the body rows on screen. *)
Definition view_row_keys (v : View) : list JS.value :=
  match v with VLayout _ t _ => tr_key <$> tbody t | _ => [] end.

(** ** Clicking *)

(** A disabled button does not deliver its click. *)
Definition click (b : Button) (state : Z) : Z :=
  if disabled b then state else onClick b state.

Definition click_item (it : PageItem) (state : Z) : Z :=
  match it with
  | EllipsisSpan _ => state
  | PageButton _ _ f => f state
  end.

Inductive Control : Type :=
| First
| Prev
| Jump (index : nat)
| Next
| Last.

(** The state after the user clicks a control of the strip [c]. *)
Definition navigate (c : Controls) (ctl : Control) (state : Z) : Z :=
  match ctl with
  | First => click (first_button c) state
  | Prev => click (prev_button c) state
  | Jump i =>
      match page_items c !! i with
      | Some it => click_item it state
      | None => state
      end
  | Next => click (next_button c) state
  | Last => click (last_button c) state
  end.

(** A click on the rendered tree; with no strip there is nothing to click. *)
Definition transition (props : DataTableProps) (currentPage : Z)
    (ctl : Control) : Z :=
  match view_controls (view props currentPage) with
  | Some c => navigate c ctl currentPage
  | None => currentPage
  end.

(** ** React: state updates queued while rendering *)

Module React.

(** [RE_RENDER_LIMIT]: after this many re-runs React gives up with "Too
    many re-renders". *)
Definition RE_RENDER_LIMIT : nat := 25.

(** One render pass of a component with a single state cell.  When the
    body has set the cell to another value while rendering, React drops
    the tree of that call and runs the body again with the new value,
    before anything reaches the screen; the pass ends with the first call
    that leaves the cell alone. *)
Fixpoint renderPass {V : Type} (fuel : nat) (body : Z → V * Z) (state : Z)
  : option (V * Z) :=
  let '(tree, queued) := body state in
  if queued =? state then Some (tree, state)
  else match fuel with
       | O => None
       | S fuel' => renderPass fuel' body queued
       end.

End React.

(** The tree a render pass puts on screen and the page it ends on. *)
Definition committed (props : DataTableProps) (currentPage : Z)
  : option (View * Z) :=
  React.renderPass React.RE_RENDER_LIMIT (render props) currentPage.

(** The values the state cell can take: [useState(1)] to begin with, then
    whatever a render queues or a click on a rendered strip sets, under any
    props whose page size is not zero. *)
Inductive reachable : Z → Prop :=
| reach_initial : reachable 1
| reach_render (props : DataTableProps) (currentPage : Z) :
    pageSize props ≠ 0 →
    reachable currentPage → reachable (snd (render props currentPage))
| reach_click (props : DataTableProps) (currentPage : Z) (ctl : Control) :
    pageSize props ≠ 0 →
    reachable currentPage → reachable (transition props currentPage ctl).

(** The pages [1..n] in order. *)
Definition allPages (n : Z) : list Z := seqZ 1 n.

(** ** Sample inputs *)

(** A row carrying only its [id]. *)
Definition idRow (n : Z) : Row := {[ "id" := JS.VStr (pretty n) ]}.

(** [n] rows with ids ["0"], ["1"], ... *)
Definition idRows (n : Z) : list Row := idRow <$> seqZ 0 n.

Definition idColumn : Column :=
  {| header := "Id"; accessor := Field "id"; className := None;
     hideOnMobile := false; mobileHighlight := false |}.

(** A column read from a property no [idRow] carries. *)
Definition nameColumn : Column :=
  {| header := "Name"; accessor := Field "name"; className := None;
     hideOnMobile := true; mobileHighlight := false |}.

(** An actions column that is also marked as highlighted. *)
Definition highlightedActions : Column :=
  {| header := "Actions"; accessor := Fn (λ _, RElement "button" []);
     className := None; hideOnMobile := false; mobileHighlight := true |}.

Definition plainActions : Column :=
  {| header := "Actions"; accessor := Fn (λ _, RElement "button" []);
     className := None; hideOnMobile := false; mobileHighlight := false |}.

(** A second column headed "Actions". *)
Definition linkActions : Column :=
  {| header := "Actions"; accessor := Fn (λ _, RElement "a" []);
     className := None; hideOnMobile := false; mobileHighlight := false |}.

Definition titleColumn : Column :=
  {| header := "Title"; accessor := Field "id"; className := None;
     hideOnMobile := false; mobileHighlight := true |}.

(** A row with a property of every kind of value; it carries no
    ["name"]. *)
Definition mixedRow : Row :=
  {[ "id" := JS.VStr "r1";
     "age" := JS.VNum 42 I;
     "balance" := JS.VNum (-7) I;
     "visits" := JS.VNum 9007199254740991 I;
     "ratio" := JS.VNaN;
     "limit" := JS.VInfinity true;
     "stamp" := JS.VBigInt 590295810358705651712;
     "owner" := JS.VNull;
     "nick" := JS.VUndefined;
     "active" := JS.VBool true ]}.

(** A column that reads the property [k]. *)
Definition fieldColumn (k : string) : Column :=
  {| header := k; accessor := Field k; className := None;
     hideOnMobile := false; mobileHighlight := false |}.

(** A paginated table of [n] rows, ten to a page. *)
Definition paginated (cols : list Column) (n : Z) : DataTableProps :=
  {| columns := cols; data := idRows n; loading := false;
     emptyMessage := "No data available"; onRowClick := None;
     mobileCardView := true; pagination := true; pageSize := 10 |}.

(** *** The loop computes the range *)

Lemma for_push_spec (fuel : nat) (i hi : Z) (pages : list NumOrStr) :
  hi - i + 1 ≤ Z.of_nat fuel →
  for_push fuel i hi pages = pages ++ (Num <$> seqZ i (hi - i + 1)).
Proof.
  revert i pages. induction fuel as [|fuel IH]; intros i pages Hfuel; simpl.
  - rewrite seqZ_nil by lia. by rewrite app_nil_r.
  - destruct (Z.leb_spec i hi) as [Hle|Hgt].
    + rewrite IH by lia. rewrite (seqZ_cons i) by lia.
      rewrite fmap_cons, <- app_assoc. simpl.
      replace (Z.succ i) with (i + 1) by lia.
      by replace (Z.pred (hi - i + 1)) with (hi - (i + 1) + 1) by lia.
    + rewrite seqZ_nil by lia. by rewrite app_nil_r.
Qed.

Lemma for_push_complete (lo hi : Z) (pages : list NumOrStr) :
  push_range lo hi pages = pages ++ (Num <$> seqZ lo (hi - lo + 1)).
Proof. unfold push_range. apply for_push_spec. lia. Qed.

Lemma push_range_3 (lo hi : Z) (pages : list NumOrStr) :
  hi = lo + 2 →
  push_range lo hi pages = pages ++ [Num lo; Num (lo + 1); Num (lo + 2)].
Proof.
  intros ->. rewrite for_push_complete.
  replace (lo + 2 - lo + 1) with 3 by lia.
  do 3 (rewrite seqZ_cons by lia). rewrite seqZ_nil by lia.
  rewrite <- !Z.add_1_r, <- !Z.add_assoc. done.
Qed.

Lemma push_range_4 (lo hi : Z) (pages : list NumOrStr) :
  hi = lo + 3 →
  push_range lo hi pages =
  pages ++ [Num lo; Num (lo + 1); Num (lo + 2); Num (lo + 3)].
Proof.
  intros ->. rewrite for_push_complete.
  replace (lo + 3 - lo + 1) with 4 by lia.
  do 4 (rewrite seqZ_cons by lia). rewrite seqZ_nil by lia.
  rewrite <- !Z.add_1_r, <- !Z.add_assoc. done.
Qed.

(** ** Sessions and what a tree shows *)

(** A click and the render it causes: the page the user is left on. *)
Definition step (props : DataTableProps) (currentPage : Z) (ctl : Control)
  : Z :=
  snd (render props (transition props currentPage ctl)).

(** A run of clicks on a table whose props do not change. *)
Definition session (props : DataTableProps) (currentPage : Z)
    (clicks : list Control) : Z :=
  foldl (step props) currentPage clicks.

(** The pages whose button carries the active style. *)
Definition active_pages (items : list PageItem) : list Z :=
  omap (λ it, match it with
              | PageButton n true _ => Some n
              | _ => None
              end) items.

(** The keys of the cards on screen. *)
Definition view_card_keys (v : View) : list JS.value :=
  match view_cards v with
  | Some cards => card_key <$> cards
  | None => []
  end.

(** Two columns that agree on all a card reads of a column: its header, its
    accessor and its highlight flag. *)
Definition sameOnCards (a b : Column) : Prop :=
  header a = header b ∧ accessor a = accessor b
  ∧ mobileHighlight a = mobileHighlight b.

(** The same props with another column list. *)
Definition withColumns (cols : list Column) (props : DataTableProps)
  : DataTableProps :=
  {| columns := cols; data := data props; loading := loading props;
     emptyMessage := emptyMessage props; onRowClick := onRowClick props;
     mobileCardView := mobileCardView props;
     pagination := pagination props; pageSize := pageSize props |}.

(** [idColumn] with a class of its own, kept off narrow screens. *)
Definition wideIdColumn : Column :=
  {| header := "Id"; accessor := Field "id"; className := Some "w-24";
     hideOnMobile := true; mobileHighlight := false |}.

(** Membership in, and absence of repeats from, a list written out. *)
Ltac elem_of_explicit :=
  rewrite ?elem_of_cons; repeat first [by left | right].

Ltac NoDup_explicit :=
  repeat (apply NoDup_cons; split;
          [rewrite ?not_elem_of_cons; split_and?;
           first [apply not_elem_of_nil | lia] |]);
  apply NoDup_nil_2.

(** *** The four branches of [getPageNumbers] *)

Section Window.

Variables currentPage totalPages : Z.

Lemma window_small :
  totalPages ≤ 5 →
  getPageNumbers currentPage totalPages = Num <$> allPages totalPages.
Proof.
  intros H. unfold getPageNumbers, maxVisiblePages, allPages.
  destruct (Z.leb_spec totalPages 5); [|lia].
  rewrite for_push_complete. simpl. f_equal. f_equal. lia.
Qed.

Lemma window_head :
  5 < totalPages → currentPage ≤ 3 →
  getPageNumbers currentPage totalPages =
  [Num 1; Num 2; Num 3; Num 4; ellipsis; Num totalPages].
Proof.
  intros HT Hc. unfold getPageNumbers, maxVisiblePages, push.
  destruct (Z.leb_spec totalPages 5); [lia|].
  destruct (Z.leb_spec currentPage 3); [|lia].
  by rewrite (push_range_4 1 4).
Qed.

Lemma window_tail :
  5 < totalPages → totalPages - 2 ≤ currentPage →
  getPageNumbers currentPage totalPages =
  [Num 1; ellipsis; Num (totalPages - 3); Num (totalPages - 2);
   Num (totalPages - 1); Num totalPages].
Proof.
  intros HT Hc. unfold getPageNumbers, maxVisiblePages, push.
  destruct (Z.leb_spec totalPages 5); [lia|].
  destruct (Z.leb_spec currentPage 3); [lia|].
  rewrite Z.geb_leb.
  destruct (Z.leb_spec (totalPages - 2) currentPage); [|lia].
  rewrite (push_range_4 (totalPages - 3) totalPages) by lia.
  replace (totalPages - 3 + 1) with (totalPages - 2) by lia.
  replace (totalPages - 3 + 2) with (totalPages - 1) by lia.
  by replace (totalPages - 3 + 3) with totalPages by lia.
Qed.

Lemma window_middle :
  5 < totalPages → 3 < currentPage → currentPage < totalPages - 2 →
  getPageNumbers currentPage totalPages =
  [Num 1; ellipsis; Num (currentPage - 1); Num currentPage;
   Num (currentPage + 1); ellipsis; Num totalPages].
Proof.
  intros HT Hlo Hhi. unfold getPageNumbers, maxVisiblePages, push.
  destruct (Z.leb_spec totalPages 5); [lia|].
  destruct (Z.leb_spec currentPage 3); [lia|].
  rewrite Z.geb_leb.
  destruct (Z.leb_spec (totalPages - 2) currentPage); [lia|].
  rewrite (push_range_3 (currentPage - 1) (currentPage + 1)) by lia.
  replace (currentPage - 1 + 1) with currentPage by lia.
  by replace (currentPage - 1 + 2) with (currentPage + 1) by lia.
Qed.

(** Past five pages exactly one of the three long forms applies. *)
Lemma window_cases :
  5 < totalPages →
  (currentPage ≤ 3 ∧
   getPageNumbers currentPage totalPages =
   [Num 1; Num 2; Num 3; Num 4; ellipsis; Num totalPages])
  ∨ (totalPages - 2 ≤ currentPage ∧
     getPageNumbers currentPage totalPages =
     [Num 1; ellipsis; Num (totalPages - 3); Num (totalPages - 2);
      Num (totalPages - 1); Num totalPages])
  ∨ (3 < currentPage < totalPages - 2 ∧
     getPageNumbers currentPage totalPages =
     [Num 1; ellipsis; Num (currentPage - 1); Num currentPage;
      Num (currentPage + 1); ellipsis; Num totalPages]).
Proof.
  intros HT.
  destruct (Z_le_gt_dec currentPage 3) as [H3|H3].
  { left. split; [done|]. by apply window_head. }
  destruct (Z_le_gt_dec (totalPages - 2) currentPage) as [Ht|Ht].
  { right; left. split; [done|]. by apply window_tail. }
  right; right. split; [lia|]. apply window_middle; lia.
Qed.

End Window.

(** The list [1..n]: [n] entries (none when [n ≤ 0]), entry [i] being
    [i + 1]. *)
Lemma allPages_lookup (n : Z) (i : nat) :
  length (allPages n) = Z.to_nat n ∧
  (Z.of_nat i < n → allPages n !! i = Some (Z.of_nat i + 1)).
Proof.
  unfold allPages. split; [apply length_seqZ|].
  intros Hi. rewrite lookup_seqZ_lt by done. f_equal. lia.
Qed.

(** C1. [getPageNumbers] has the four-branch structure: up to five pages it
    lists every page [1..totalPages] in order with no ellipsis, whatever the
    current page; past five pages it gives [1,2,3,4,…,totalPages] when
    [currentPage ≤ 3], [1,…,totalPages-3..totalPages] when
    [currentPage ≥ totalPages - 2], and
    [1,…,currentPage-1,currentPage,currentPage+1,…,totalPages] otherwise;
    with the three worked examples for ten pages. *)
Theorem getPageNumbers_four_branches :
  (∀ currentPage totalPages : Z,
     totalPages ≤ 5 →
     getPageNumbers currentPage totalPages = Num <$> allPages totalPages
     ∧ ellipsis ∉ getPageNumbers currentPage totalPages)
  ∧ (∀ currentPage totalPages : Z,
       (totalPages > 5) → currentPage ≤ 3 →
       getPageNumbers currentPage totalPages =
       [Num 1; Num 2; Num 3; Num 4; ellipsis; Num totalPages])
  ∧ (∀ currentPage totalPages : Z,
       (totalPages > 5) → (currentPage >= totalPages - 2) →
       getPageNumbers currentPage totalPages =
       [Num 1; ellipsis; Num (totalPages - 3); Num (totalPages - 2);
        Num (totalPages - 1); Num totalPages])
  ∧ (∀ currentPage totalPages : Z,
       (totalPages > 5) → ¬ currentPage ≤ 3 →
       ¬ (currentPage >= totalPages - 2) →
       getPageNumbers currentPage totalPages =
       [Num 1; ellipsis; Num (currentPage - 1); Num currentPage;
        Num (currentPage + 1); ellipsis; Num totalPages])
  ∧ getPageNumbers 1 10 = [Num 1; Num 2; Num 3; Num 4; ellipsis; Num 10]
  ∧ getPageNumbers 7 10 =
    [Num 1; ellipsis; Num 6; Num 7; Num 8; ellipsis; Num 10]
  ∧ getPageNumbers 9 10 =
    [Num 1; ellipsis; Num 7; Num 8; Num 9; Num 10].
Proof.
  split_and!; try reflexivity.
  - intros c T HT. rewrite window_small by done. split; [done|].
    intros Hin. apply list_elem_of_fmap in Hin as (n & Hn & _).
    discriminate Hn.
  - intros c T HT Hc. apply window_head; lia.
  - intros c T HT Hc. apply window_tail; lia.
  - intros c T HT Hlo Hhi. apply window_middle; lia.
Qed.

Lemma getPageNumbers_four_branches_witness :
  getPageNumbers 2 4 = [Num 1; Num 2; Num 3; Num 4]
  ∧ getPageNumbers 3 8 = [Num 1; Num 2; Num 3; Num 4; ellipsis; Num 8]
  ∧ getPageNumbers 6 8 = [Num 1; ellipsis; Num 5; Num 6; Num 7; Num 8]
  ∧ getPageNumbers 4 8 =
    [Num 1; ellipsis; Num 3; Num 4; Num 5; ellipsis; Num 8].
Proof.
  destruct getPageNumbers_four_branches
    as (Hsmall & Hhead & Htail & Hmiddle & _).
  split_and!.
  - apply (Hsmall 2 4). lia.
  - apply (Hhead 3 8); lia.
  - apply (Htail 6 8); lia.
  - apply (Hmiddle 4 8); lia.
Defined.

(** C2. Past five pages and for a current page in [1, totalPages], the
    window has between 5 and 7 entries, one or two of them ellipses, holds
    page 1 and page [totalPages], has no two neighbouring ellipses and no
    page number twice. *)
Theorem getPageNumbers_shape (currentPage totalPages : Z) :
  (totalPages > 5) →
  1 ≤ currentPage ≤ totalPages →
  let window := getPageNumbers currentPage totalPages in
  (5 ≤ length window ≤ 7)%nat
  ∧ (count_ellipsis window = 1 ∨ count_ellipsis window = 2)%nat
  ∧ Num 1 ∈ window
  ∧ Num totalPages ∈ window
  ∧ adjacent_ellipsis window = false
  ∧ NoDup (page_numbers window).
Proof.
  intros HT Hc window. subst window.
  destruct (window_cases currentPage totalPages ltac:(lia)) as
    [[H ->]|[[H ->]|[H ->]]].
  - split_and!;
      [simpl; lia|simpl; lia|by left|elem_of_explicit|elem_of_explicit|done|].
    simpl. NoDup_explicit.
  - split_and!;
      [simpl; lia|simpl; lia|by left|elem_of_explicit|elem_of_explicit|done|].
    simpl. NoDup_explicit.
  - split_and!;
      [simpl; lia|simpl; lia|by right|elem_of_explicit|elem_of_explicit|done|].
    simpl. NoDup_explicit.
Qed.

Lemma getPageNumbers_shape_witness :
  let window := getPageNumbers 7 10 in
  (5 ≤ length window ≤ 7)%nat
  ∧ (count_ellipsis window = 1 ∨ count_ellipsis window = 2)%nat
  ∧ Num 1 ∈ window
  ∧ Num 10 ∈ window
  ∧ adjacent_ellipsis window = false
  ∧ NoDup (page_numbers window).
Proof. apply (getPageNumbers_shape 7 10); lia. Defined.

(** *** Slicing *)

Lemma ceil_div_bounds (a b : Z) :
  0 < b → (JS.ceil_div a b - 1) * b < a ≤ JS.ceil_div a b * b.
Proof.
  intros Hb. unfold JS.ceil_div.
  pose proof (Z.div_mod (- a) b ltac:(lia)).
  pose proof (Z.mod_pos_bound (- a) b Hb). nia.
Qed.

Lemma ceil_div_0 (b : Z) : JS.ceil_div 0 b = 0.
Proof. unfold JS.ceil_div. simpl. by rewrite Zdiv_0_l. Qed.

(** With a start inside [0, ∞) and a stop not before it, [slice] takes
    [stop - start] elements after dropping [start]. *)
Lemma slice_take_drop {A : Type} (arr : list A) (start stop : Z) :
  0 ≤ start → start ≤ stop →
  JS.slice arr start stop =
  take (Z.to_nat (stop - start)) (drop (Z.to_nat start) arr).
Proof.
  intros H0 Hle. unfold JS.slice, JS.rel_index.
  destruct (Z.ltb_spec start 0); [lia|].
  destruct (Z.ltb_spec stop 0); [lia|].
  destruct (Z_lt_le_dec start (Z.of_nat (length arr))) as [Hin|Hout].
  - rewrite (Z.min_l start) by lia.
    destruct (Z_lt_le_dec stop (Z.of_nat (length arr))) as [Hs|Hs].
    + rewrite (Z.min_l stop) by lia. do 2 f_equal. lia.
    + rewrite (Z.min_r stop) by lia.
      rewrite !take_ge; [done|rewrite length_drop; lia..].
  - rewrite !(drop_ge arr); [|lia..]. by rewrite !take_nil.
Qed.

Section Slice.

Variable props : DataTableProps.
Hypothesis Hpagination : pagination props = true.
Hypothesis HpageSize : 0 < pageSize props.

Lemma paginatedData_take_drop (currentPage : Z) :
  1 ≤ currentPage →
  paginatedData props currentPage =
  take (Z.to_nat (pageSize props))
       (drop (Z.to_nat ((currentPage - 1) * pageSize props)) (data props)).
Proof.
  intros Hc. unfold paginatedData, endIndex, startIndex.
  rewrite Hpagination, slice_take_drop by nia.
  do 2 f_equal. lia.
Qed.

(** Page [i + 1], counted in naturals. *)
Lemma paginatedData_nat (i : nat) :
  paginatedData props (Z.of_nat i + 1) =
  take (Z.to_nat (pageSize props))
       (drop (i * Z.to_nat (pageSize props)) (data props)).
Proof.
  rewrite paginatedData_take_drop by lia. do 2 f_equal. nia.
Qed.

Lemma paginatedData_length (currentPage : Z) :
  1 ≤ currentPage →
  Z.of_nat (length (paginatedData props currentPage)) =
  Z.max 0 (Z.min (endIndex props currentPage) (dataLength props)
           - startIndex props currentPage).
Proof.
  intros Hc. rewrite paginatedData_take_drop by done.
  rewrite length_take, length_drop.
  unfold endIndex, startIndex, dataLength. nia.
Qed.

Lemma paginatedData_lookup (currentPage i : Z) :
  1 ≤ currentPage →
  startIndex props currentPage ≤ i
  < Z.min (endIndex props currentPage) (dataLength props) →
  paginatedData props currentPage
    !! Z.to_nat (i - startIndex props currentPage)
  = data props !! Z.to_nat i.
Proof.
  intros Hc Hi. rewrite paginatedData_take_drop by done.
  unfold endIndex, startIndex, dataLength in *.
  rewrite lookup_take_lt by lia. rewrite lookup_drop. f_equal. nia.
Qed.

(** A page past the last one is empty. *)
Lemma paginatedData_beyond (currentPage : Z) :
  totalPages props < currentPage → 0 < totalPages props →
  paginatedData props currentPage = [].
Proof.
  intros Hc HT. rewrite paginatedData_take_drop by lia.
  pose proof (ceil_div_bounds (dataLength props) (pageSize props) HpageSize)
    as Hb.
  fold (totalPages props) in Hb. unfold dataLength in Hb.
  rewrite drop_ge by nia. apply take_nil.
Qed.

End Slice.

(** Cutting a list into [n] consecutive chunks of [size] and gluing them
    back gives the list, once [n] chunks reach its end. *)
Lemma concat_chunks {A : Type} (size n : nat) (l : list A) :
  (length l ≤ n * size)%nat →
  concat ((λ i : nat, take size (drop (i * size) l)) <$> seq 0 n) = l.
Proof.
  revert l. induction n as [|n IH]; intros l Hlen.
  - simpl in *. destruct l; [done|simpl in Hlen; lia].
  - rewrite <- cons_seq, <- fmap_S_seq, fmap_cons, <- list_fmap_compose.
    simpl. etrans; [|apply (take_drop size l)]. f_equal.
    rewrite <- (IH (drop size l)) by (rewrite length_drop; lia).
    f_equal. apply list_fmap_ext. intros _ i _. simpl.
    by rewrite drop_drop.
Qed.

(** C4. With pagination on, a positive page size and a current page from 1
    up, the visible slice is [records[startIndex, endIndex)] with
    [startIndex = (currentPage - 1) * pageSize] and
    [endIndex = startIndex + pageSize], the upper bound clamped to the
    number of records: it has [min(endIndex, length) - startIndex] entries
    (none when that is negative) and its entries are the records at the
    indices from [startIndex] up to that bound, in order.  With 23 records,
    ten to a page, page 3 shows records 20..22 and there are 3 pages.  With
    pagination off the slice is every record and no control strip is
    built. *)
Theorem paginatedData_is_slice (props : DataTableProps) (currentPage : Z) :
  (pagination props = true → 0 < pageSize props → 1 ≤ currentPage →
   startIndex props currentPage = (currentPage - 1) * pageSize props
   ∧ endIndex props currentPage =
     startIndex props currentPage + pageSize props
   ∧ Z.of_nat (length (paginatedData props currentPage)) =
     Z.max 0 (Z.min (endIndex props currentPage) (dataLength props)
              - startIndex props currentPage)
   ∧ ∀ i : Z,
       startIndex props currentPage ≤ i
       < Z.min (endIndex props currentPage) (dataLength props) →
       paginatedData props currentPage
         !! Z.to_nat (i - startIndex props currentPage)
       = data props !! Z.to_nat i)
  ∧ (pagination props = true → pageSize props = 10 →
     dataLength props = 23 → currentPage = 3 →
     paginatedData props currentPage = drop 20 (data props)
     ∧ length (paginatedData props currentPage) = 3%nat
     ∧ totalPages props = 3)
  ∧ (pagination props = false →
     paginatedData props currentPage = data props
     ∧ PaginationControls props currentPage = None
     ∧ view_controls (view props currentPage) = None).
Proof.
  split_and!.
  - intros Hp Hs Hc. split_and!; [done|done|..].
    + by apply paginatedData_length.
    + intros i Hi. by apply paginatedData_lookup.
  - intros Hp Hs Hlen ->. unfold dataLength in Hlen.
    rewrite (paginatedData_take_drop props Hp) by lia. rewrite Hs.
    change (Z.to_nat ((3 - 1) * 10)) with 20%nat.
    assert (length (drop 20 (data props)) = 3%nat) as Hd
      by (rewrite length_drop; lia).
    rewrite take_ge by (rewrite Hd; lia).
    split_and!; [done|done|].
    unfold totalPages, dataLength. by rewrite Hlen, Hs.
  - intros Hp. unfold view, paginatedData, PaginationControls.
    rewrite Hp. simpl. split_and!; [done|done|].
    by destruct (loading props), (dataLength props =? 0).
Qed.

Lemma paginatedData_is_slice_witness :
  paginatedData (paginated [idColumn] 23) 3 = drop 20 (idRows 23)
  ∧ length (paginatedData (paginated [idColumn] 23) 3) = 3%nat
  ∧ totalPages (paginated [idColumn] 23) = 3.
Proof.
  apply (paginatedData_is_slice (paginated [idColumn] 23) 3); reflexivity.
Defined.

(** C5. With pagination on and a positive page size, [totalPages] is the
    ceiling of [length / pageSize], and the slices of the pages
    [1..totalPages], glued in page order, are the record list itself;
    every page before the last holds exactly [pageSize] records, and the
    last one holds between 1 and [pageSize]. *)
Theorem pages_reconstruct_data (props : DataTableProps) :
  pagination props = true → 0 < pageSize props →
  (totalPages props - 1) * pageSize props < dataLength props
  ≤ totalPages props * pageSize props
  ∧ concat (paginatedData props <$> allPages (totalPages props))
    = data props
  ∧ (∀ p : Z, 1 ≤ p < totalPages props →
       Z.of_nat (length (paginatedData props p)) = pageSize props)
  ∧ (0 < totalPages props →
     1 ≤ Z.of_nat (length (paginatedData props (totalPages props)))
     ≤ pageSize props).
Proof.
  intros Hp Hs.
  pose proof (ceil_div_bounds (dataLength props) (pageSize props) Hs) as Hb.
  fold (totalPages props) in Hb.
  assert (0 ≤ dataLength props) as Hlen by (unfold dataLength; lia).
  split_and!; [lia|lia|..].
  - unfold allPages, seqZ. rewrite <- list_fmap_compose.
    erewrite list_fmap_ext;
      [|intros _ i _; simpl; by apply paginatedData_nat].
    apply concat_chunks. unfold dataLength in *. nia.
  - intros p Hpg. rewrite (paginatedData_length props Hp) by lia.
    unfold endIndex, startIndex. nia.
  - intros HT. rewrite (paginatedData_length props Hp) by lia.
    unfold endIndex, startIndex. nia.
Qed.

Lemma pages_reconstruct_data_witness :
  (totalPages (paginated [idColumn] 23) - 1) * 10 < 23
  ≤ totalPages (paginated [idColumn] 23) * 10
  ∧ concat (paginatedData (paginated [idColumn] 23) <$> allPages 3)
    = idRows 23
  ∧ (∀ p : Z, 1 ≤ p < 3 →
       Z.of_nat (length (paginatedData (paginated [idColumn] 23) p)) = 10)
  ∧ (0 < 3 →
     1 ≤ Z.of_nat (length (paginatedData (paginated [idColumn] 23) 3)) ≤ 10).
Proof.
  apply (pages_reconstruct_data (paginated [idColumn] 23)).
  - reflexivity.
  - reflexivity.
Defined.

(** *** Self-correction of the page state *)

(** The keys on screen are the ids of the slice. *)
Lemma view_row_keys_layout (props : DataTableProps) (currentPage : Z) :
  loading props = false → dataLength props ≠ 0 →
  view_row_keys (view props currentPage) =
  (λ row : Row, JS.get row "id") <$> paginatedData props currentPage.
Proof.
  intros Hl Hd. unfold view, view_row_keys. rewrite Hl.
  destruct (Z.eqb_spec (dataLength props) 0); [done|]. simpl.
  by rewrite <- list_fmap_compose.
Qed.

Lemma totalPages_pos_data (props : DataTableProps) :
  0 < totalPages props → dataLength props ≠ 0.
Proof.
  intros HT Hd. unfold totalPages in HT. rewrite Hd, ceil_div_0 in HT. lia.
Qed.

Lemma queuedPage_in_range (props : DataTableProps) (currentPage : Z) :
  1 ≤ currentPage → 0 < totalPages props →
  1 ≤ queuedPage props currentPage ≤ totalPages props.
Proof.
  intros Hc HT. unfold queuedPage.
  destruct (Z.gtb_spec currentPage (totalPages props));
    destruct (Z.gtb_spec (totalPages props) 0); simpl; lia.
Qed.

Lemma queuedPage_keeps (props : DataTableProps) (currentPage : Z) :
  currentPage ≤ totalPages props ∨ totalPages props ≤ 0 →
  queuedPage props currentPage = currentPage.
Proof.
  intros H. unfold queuedPage.
  destruct (Z.gtb_spec currentPage (totalPages props));
    destruct (Z.gtb_spec (totalPages props) 0); simpl; lia.
Qed.

(** A call of the body that is handed a page past the end derives the
    slice of that page (with pagination on and a positive page size: no
    row at all) and queues page 1; a call handed page 1 queues nothing. *)
Lemma body_call_past_the_end (props : DataTableProps) (currentPage : Z) :
  (currentPage > totalPages props) → (totalPages props > 0) →
  render props currentPage = (view props currentPage, 1)
  ∧ render props 1 = (view props 1, 1)
  ∧ (pagination props = true → 0 < pageSize props →
     paginatedData props currentPage = []
     ∧ paginatedData props 1
       = take (Z.to_nat (pageSize props)) (data props)).
Proof.
  intros Hc HT. unfold render, queuedPage. split_and!.
  - destruct (Z.gtb_spec currentPage (totalPages props)); [|lia].
    destruct (Z.gtb_spec (totalPages props) 0); [done|lia].
  - destruct (Z.gtb_spec 1 (totalPages props)); [lia|done].
  - intros Hp Hs. split.
    + apply paginatedData_beyond; [done|done|lia|lia].
    + by rewrite (paginatedData_take_drop props Hp Hs 1).
Qed.

(** A render pass always ends, after one re-run at most, on the page the
    first call of the body queues. *)
Lemma committed_queued (props : DataTableProps) (currentPage : Z) :
  committed props currentPage
  = Some (view props (queuedPage props currentPage),
          queuedPage props currentPage).
Proof.
  unfold committed, React.RE_RENDER_LIMIT. cbn [React.renderPass render].
  destruct (Z.eqb_spec (queuedPage props currentPage) currentPage)
    as [Heq|Hne].
  - by rewrite Heq.
  - assert (queuedPage props (queuedPage props currentPage)
            = queuedPage props currentPage) as ->.
    { unfold queuedPage at 2 3.
      destruct (Z.gtb_spec currentPage (totalPages props));
        destruct (Z.gtb_spec (totalPages props) 0); simpl;
        apply queuedPage_keeps; lia. }
    by rewrite Z.eqb_refl.
Qed.

(** C3. A render pass that begins with [currentPage > totalPages] and
    [totalPages > 0] corrects the page state to 1 within the pass: the
    body queues page 1, React runs it again before anything is shown, and
    the slice and tree the pass ends with are those of page 1, the same as
    for a pass begun on page 1.  With pagination on and a positive page
    size the rows shown are the first [pageSize] records. *)
Theorem self_correction_same_render_pass (props : DataTableProps)
    (currentPage : Z) :
  (currentPage > totalPages props) → (totalPages props > 0) →
  snd (render props currentPage) = 1
  ∧ committed props currentPage = Some (view props 1, 1)
  ∧ committed props currentPage = committed props 1
  ∧ (pagination props = true → 0 < pageSize props →
     paginatedData props 1 = take (Z.to_nat (pageSize props)) (data props)
     ∧ (loading props = false →
        ∃ tree : View,
          committed props currentPage = Some (tree, 1)
          ∧ view_row_keys tree
            = (λ row : Row, JS.get row "id")
                <$> take (Z.to_nat (pageSize props)) (data props))).
Proof.
  intros Hc HT.
  destruct (body_call_past_the_end props currentPage Hc HT)
    as (Hfirst & Hone & Hslice).
  assert (committed props currentPage = Some (view props 1, 1)) as Hpass.
  { rewrite committed_queued.
    change (queuedPage props currentPage)
      with (snd (render props currentPage)). by rewrite Hfirst. }
  assert (committed props 1 = Some (view props 1, 1)) as Hpass1.
  { rewrite committed_queued.
    change (queuedPage props 1) with (snd (render props 1)).
    by rewrite Hone. }
  split_and!; [by rewrite Hfirst|done|by rewrite Hpass1|].
  intros Hp Hs. destruct (Hslice Hp Hs) as [_ H1]. split; [done|].
  intros Hl. exists (view props 1). split; [done|].
  rewrite view_row_keys_layout
    by (try done; apply totalPages_pos_data; lia).
  by rewrite H1.
Qed.

Lemma self_correction_same_render_pass_witness :
  snd (render (paginated [idColumn] 15) 5) = 1
  ∧ committed (paginated [idColumn] 15) 5
    = Some (view (paginated [idColumn] 15) 1, 1)
  ∧ committed (paginated [idColumn] 15) 5
    = committed (paginated [idColumn] 15) 1
  ∧ (pagination (paginated [idColumn] 15) = true →
     0 < pageSize (paginated [idColumn] 15) →
     paginatedData (paginated [idColumn] 15) 1 = take 10 (idRows 15)
     ∧ (loading (paginated [idColumn] 15) = false →
        ∃ tree : View,
          committed (paginated [idColumn] 15) 5 = Some (tree, 1)
          ∧ view_row_keys tree
            = (λ row : Row, JS.get row "id") <$> take 10 (idRows 15))).
Proof.
  apply (self_correction_same_render_pass (paginated [idColumn] 15) 5).
  - reflexivity.
  - reflexivity.
Defined.

(** *** Navigation *)

(** Every number in the window is a page that exists. *)
Lemma getPageNumbers_in_range (currentPage totalPages n : Z) :
  1 ≤ currentPage ≤ totalPages →
  Num n ∈ getPageNumbers currentPage totalPages →
  1 ≤ n ≤ totalPages.
Proof.
  intros Hc Hin.
  destruct (Z_le_gt_dec totalPages 5) as [Hs|Hs].
  - rewrite window_small in Hin by done.
    apply list_elem_of_fmap in Hin as (m & [= ->] & Hm).
    unfold allPages in Hm. apply elem_of_seqZ in Hm. lia.
  - destruct (window_cases currentPage totalPages ltac:(lia)) as
      [[H Hw]|[[H Hw]|[H Hw]]];
      rewrite Hw in Hin; unfold ellipsis in Hin;
      repeat (apply elem_of_cons in Hin as [Hin|Hin];
              [first [discriminate Hin | injection Hin as ->; lia]|]);
      by apply not_elem_of_nil in Hin.
Qed.

Lemma pageItem_Num (currentPage : Z) (index : nat) (n : Z) :
  pageItem currentPage index (Num n)
  = PageButton n (bool_decide (currentPage = n)) (λ _, n).
Proof. done. Qed.

Lemma pageItem_Str (currentPage : Z) (index : nat) (s : string) :
  pageItem currentPage index (Str s) = EllipsisSpan index.
Proof. unfold pageItem. by case_bool_decide. Qed.

Section Navigation.

Variable props : DataTableProps.
Variable currentPage : Z.

Lemma view_controls_view :
  view_controls (view props currentPage) =
  if loading props then None
  else if dataLength props =? 0 then None
  else PaginationControls props currentPage.
Proof.
  unfold view. by destruct (loading props), (dataLength props =? 0).
Qed.

Lemma no_strip :
  pagination props = false ∨ totalPages props ≤ 1 →
  view_controls (view props currentPage) = None.
Proof.
  intros H. rewrite view_controls_view. unfold PaginationControls.
  destruct (loading props); [done|].
  destruct (dataLength props =? 0); [done|].
  destruct H as [->|H]; [done|].
  destruct (Z.leb_spec (totalPages props) 1); [|lia].
  by rewrite orb_true_r.
Qed.

Lemma strip_rendered :
  loading props = false → pagination props = true →
  1 < totalPages props →
  view_controls (view props currentPage)
  = PaginationControls props currentPage
  ∧ ∃ strip, PaginationControls props currentPage = Some strip
    ∧ first_button strip
      = {| disabled := currentPage =? 1; onClick := λ _, 1 |}
    ∧ prev_button strip
      = {| disabled := currentPage =? 1;
           onClick := λ prev, Z.max 1 (prev - 1) |}
    ∧ page_items strip
      = imap (pageItem currentPage)
             (getPageNumbers currentPage (totalPages props))
    ∧ next_button strip
      = {| disabled := currentPage =? totalPages props;
           onClick := λ prev, Z.min (totalPages props) (prev + 1) |}
    ∧ last_button strip
      = {| disabled := currentPage =? totalPages props;
           onClick := λ _, totalPages props |}.
Proof.
  intros Hl Hp HT. rewrite view_controls_view, Hl.
  pose proof (totalPages_pos_data props ltac:(lia)) as Hd.
  destruct (Z.eqb_spec (dataLength props) 0); [done|].
  split; [done|]. unfold PaginationControls. rewrite Hp.
  destruct (Z.leb_spec (totalPages props) 1); [lia|]. simpl.
  eexists. split; [done|]. by simpl.
Qed.

Lemma strip_cases :
  view_controls (view props currentPage) = None
  ∨ (loading props = false ∧ pagination props = true
     ∧ 1 < totalPages props).
Proof.
  rewrite view_controls_view. unfold PaginationControls.
  destruct (loading props); [by left|].
  destruct (dataLength props =? 0); [by left|].
  destruct (pagination props); [|by left].
  destruct (Z.leb_spec (totalPages props) 1); [by left|by right].
Qed.

End Navigation.

(** What each click does once the strip is on screen. *)
Lemma transition_rendered (props : DataTableProps) (currentPage : Z) :
  loading props = false → pagination props = true →
  1 < totalPages props →
  transition props currentPage First
  = (if currentPage =? 1 then currentPage else 1)
  ∧ transition props currentPage Prev
    = (if currentPage =? 1 then currentPage
       else Z.max 1 (currentPage - 1))
  ∧ transition props currentPage Next
    = (if currentPage =? totalPages props then currentPage
       else Z.min (totalPages props) (currentPage + 1))
  ∧ transition props currentPage Last
    = (if currentPage =? totalPages props then currentPage
       else totalPages props)
  ∧ ∀ i : nat,
      transition props currentPage (Jump i)
      = match getPageNumbers currentPage (totalPages props) !! i with
        | Some (Num n) => n
        | _ => currentPage
        end.
Proof.
  intros Hl Hp HT.
  destruct (strip_rendered props currentPage Hl Hp HT)
    as (Hv & strip & Hs & Hfirst & Hprev & Hitems & Hnext & Hlast).
  unfold transition. rewrite Hv, Hs. simpl. unfold click.
  rewrite Hfirst, Hprev, Hnext, Hlast, Hitems. simpl.
  split_and!; [done..|].
  intros i. rewrite list_lookup_imap.
  destruct (getPageNumbers currentPage (totalPages props) !! i)
    as [[n|s]|]; simpl; [done| |done].
  by rewrite pageItem_Str.
Qed.

(** C6. From a current page in [1, totalPages] every click leaves the page
    in [1, totalPages].  With the strip on screen, first gives 1, prev
    gives [max(1, currentPage - 1)], next gives
    [min(totalPages, currentPage + 1)], last gives [totalPages], and a
    click on the button of a window entry [n] gives [n], which is a page
    that exists; next on the last page and prev on page 1 are disabled and
    change nothing.  With pagination off or at most one page there is no
    strip, so no click changes the page. *)
Theorem navigation_stays_in_range (props : DataTableProps)
    (currentPage : Z) :
  1 ≤ currentPage ≤ totalPages props →
  (∀ ctl : Control,
     1 ≤ transition props currentPage ctl ≤ totalPages props)
  ∧ (loading props = false → pagination props = true →
     1 < totalPages props →
     (∃ strip : Controls,
        view_controls (view props currentPage) = Some strip
        ∧ (currentPage = 1 → disabled (first_button strip) = true
                             ∧ disabled (prev_button strip) = true)
        ∧ (currentPage = totalPages props →
           disabled (next_button strip) = true
           ∧ disabled (last_button strip) = true))
     ∧ transition props currentPage First = 1
     ∧ transition props currentPage Prev = Z.max 1 (currentPage - 1)
     ∧ transition props currentPage Next
       = Z.min (totalPages props) (currentPage + 1)
     ∧ transition props currentPage Last = totalPages props
     ∧ (∀ (i : nat) (n : Z),
          getPageNumbers currentPage (totalPages props) !! i
          = Some (Num n) →
          transition props currentPage (Jump i) = n
          ∧ 1 ≤ n ≤ totalPages props)
     ∧ (∀ i : nat,
          getPageNumbers currentPage (totalPages props) !! i
          = Some ellipsis →
          transition props currentPage (Jump i) = currentPage)
     ∧ (currentPage = totalPages props →
        transition props currentPage Next = currentPage)
     ∧ (currentPage = 1 →
        transition props currentPage Prev = currentPage))
  ∧ (pagination props = false ∨ totalPages props ≤ 1 →
     view_controls (view props currentPage) = None
     ∧ ∀ ctl : Control, transition props currentPage ctl = currentPage).
Proof.
  intros Hc.
  assert (∀ i n,
            getPageNumbers currentPage (totalPages props) !! i
            = Some (Num n) → 1 ≤ n ≤ totalPages props) as Hjump.
  { intros i n Hi.
    apply (getPageNumbers_in_range currentPage); [done|].
    by apply list_elem_of_lookup_2 in Hi. }
  split_and!.
  - intros ctl.
    destruct (strip_cases props currentPage) as [Hnone|(Hl & Hp & HT)].
    { unfold transition. by rewrite Hnone. }
    destruct (transition_rendered props currentPage Hl Hp HT)
      as (Hfirst & Hprev & Hnext & Hlast & Hitem).
    destruct ctl as [| |i| |].
    + rewrite Hfirst. destruct (Z.eqb_spec currentPage 1); lia.
    + rewrite Hprev. destruct (Z.eqb_spec currentPage 1); lia.
    + rewrite Hitem.
      destruct (getPageNumbers currentPage (totalPages props) !! i)
        as [[n|s]|] eqn:Hi; [by eapply Hjump|done|done].
    + rewrite Hnext.
      destruct (Z.eqb_spec currentPage (totalPages props)); lia.
    + rewrite Hlast.
      destruct (Z.eqb_spec currentPage (totalPages props)); lia.
  - intros Hl Hp HT.
    destruct (transition_rendered props currentPage Hl Hp HT)
      as (Hfirst & Hprev & Hnext & Hlast & Hitem).
    destruct (strip_rendered props currentPage Hl Hp HT)
      as (Hv & strip & Hs & Hbf & Hbp & _ & Hbn & Hbl).
    split_and!.
    + exists strip. rewrite Hv, Hs, Hbf, Hbp, Hbn, Hbl. simpl.
      split_and!; [done|intros ->; by rewrite Z.eqb_refl..].
    + rewrite Hfirst. destruct (Z.eqb_spec currentPage 1); lia.
    + rewrite Hprev. destruct (Z.eqb_spec currentPage 1); lia.
    + rewrite Hnext.
      destruct (Z.eqb_spec currentPage (totalPages props)); lia.
    + rewrite Hlast.
      destruct (Z.eqb_spec currentPage (totalPages props)); lia.
    + intros i n Hi. rewrite Hitem, Hi. split; [done|by eapply Hjump].
    + intros i Hi. by rewrite Hitem, Hi.
    + intros ->. rewrite Hnext. by rewrite Z.eqb_refl.
    + intros ->. rewrite Hprev. done.
  - intros H. pose proof (no_strip props currentPage H) as Hnone.
    split; [done|]. intros ctl. unfold transition. by rewrite Hnone.
Qed.

Lemma navigation_stays_in_range_witness :
  (∀ ctl : Control,
     1 ≤ transition (paginated [idColumn] 95) 10 ctl
     ≤ totalPages (paginated [idColumn] 95))
  ∧ transition (paginated [idColumn] 95) 10 Next = 10
  ∧ transition (paginated [idColumn] 95) 10 Prev = 9
  ∧ transition (paginated [idColumn] 95) 10 (Jump 2) = 7.
Proof.
  destruct (navigation_stays_in_range (paginated [idColumn] 95) 10)
    as (Hrange & Hstrip & _).
  - vm_compute. split; discriminate.
  - destruct Hstrip as (_ & _ & Hprev & Hnext & _ & Hjump & _);
      [reflexivity|reflexivity|reflexivity|].
    split_and!; [exact Hrange|exact Hnext|exact Hprev|].
    apply (Hjump 2%nat 7). reflexivity.
Defined.

(** Every number in a window is at least 1, whatever the current page. *)
Lemma getPageNumbers_ge_1 (currentPage totalPages n : Z) :
  Num n ∈ getPageNumbers currentPage totalPages → 1 ≤ n.
Proof.
  intros Hin.
  destruct (Z_le_gt_dec totalPages 5) as [Hs|Hs].
  - rewrite window_small in Hin by done.
    apply list_elem_of_fmap in Hin as (m & [= ->] & Hm).
    unfold allPages in Hm. apply elem_of_seqZ in Hm. lia.
  - destruct (window_cases currentPage totalPages ltac:(lia)) as
      [[H Hw]|[[H Hw]|[H Hw]]];
      rewrite Hw in Hin; unfold ellipsis in Hin;
      repeat (apply elem_of_cons in Hin as [Hin|Hin];
              [first [discriminate Hin | injection Hin as ->; lia]|]);
      by apply not_elem_of_nil in Hin.
Qed.

(** The state cell never leaves the 1-indexed pages: the slice is always
    taken at a start index that is not negative. *)
Lemma reachable_ge_1 (currentPage : Z) :
  reachable currentPage → 1 ≤ currentPage.
Proof.
  induction 1 as [|props c _ _ IH|props c ctl _ _ IH]; [done|..].
  - simpl. unfold queuedPage. by destruct (_ && _).
  - destruct (strip_cases props c) as [Hnone|(Hl & Hp & HT)].
    { unfold transition. by rewrite Hnone. }
    destruct (transition_rendered props c Hl Hp HT)
      as (Hfirst & Hprev & Hnext & Hlast & Hitem).
    destruct ctl as [| |i| |].
    + rewrite Hfirst. destruct (Z.eqb_spec c 1); lia.
    + rewrite Hprev. destruct (Z.eqb_spec c 1); lia.
    + rewrite Hitem.
      destruct (getPageNumbers c (totalPages props) !! i)
        as [[n|s]|] eqn:Hi; [|done|done].
      apply list_elem_of_lookup_2 in Hi.
      by apply getPageNumbers_ge_1 in Hi.
    + rewrite Hnext. destruct (Z.eqb_spec c (totalPages props)); lia.
    + rewrite Hlast. destruct (Z.eqb_spec c (totalPages props)); lia.
Qed.

(** *** The card layout *)

Lemma isActions_header (col : Column) :
  isActions col = true ↔ header col = "Actions".
Proof. unfold isActions. apply String.eqb_eq. Qed.

Lemma find_guarded {A : Type} (f : A → bool) (l : list A) :
  (if existsb f l then List.find f l else None) = List.find f l.
Proof.
  induction l as [|a l IH]; [done|]. simpl.
  destruct (f a); [done|]. simpl. exact IH.
Qed.

Lemma elem_of_List_filter {A : Type} (f : A → bool) (l : list A) (x : A) :
  x ∈ List.filter f l ↔ x ∈ l ∧ f x = true.
Proof. rewrite !list_elem_of_In. apply filter_In. Qed.

Lemma find_None_filter {A : Type} (f g : A → bool) (l : list A) :
  (∀ x, x ∈ l → f x = false) →
  List.find f l = None
  ∧ List.filter (λ x, g x && negb (f x)) l = List.filter g l.
Proof.
  induction l as [|a l IH]; intros Hf; [done|]. simpl.
  rewrite (Hf a) by apply list_elem_of_here.
  destruct (IH (λ x Hx, Hf x (list_elem_of_further _ _ _ Hx))) as [-> ->].
  by rewrite andb_true_r.
Qed.

(** The three selections, glued, are a rearrangement of the columns when
    no "Actions" column is highlighted and no two columns are headed
    "Actions". *)
Lemma groups_permutation (l : list Column) :
  (∀ col, col ∈ l → isActions col = true → mobileHighlight col = false) →
  (∀ (i j : nat) ci cj,
     l !! i = Some ci → l !! j = Some cj →
     isActions ci = true → isActions cj = true → i = j) →
  List.filter (λ col, mobileHighlight col) l
  ++ List.filter (λ col, negb (mobileHighlight col) && negb (isActions col)) l
  ++ option_list (List.find isActions l)
  ≡ₚ l.
Proof.
  induction l as [|a l IH]; intros Hhl Hone; [done|].
  assert (∀ col, col ∈ l → isActions col = true →
                 mobileHighlight col = false) as Hhl'.
  { intros col Hin. apply Hhl. by apply list_elem_of_further. }
  assert (∀ (i j : nat) ci cj,
            l !! i = Some ci → l !! j = Some cj →
            isActions ci = true → isActions cj = true → i = j) as Hone'.
  { intros i j ci cj Hi Hj Hci Hcj.
    by injection (Hone (S i) (S j) ci cj Hi Hj Hci Hcj). }
  specialize (IH Hhl' Hone'). simpl.
  destruct (isActions a) eqn:Hact.
  - rewrite (Hhl a) by (done || apply list_elem_of_here). simpl.
    assert (∀ x, x ∈ l → isActions x = false) as Hnone.
    { intros x Hx. destruct (isActions x) eqn:Hxa; [|done].
      apply list_elem_of_lookup_1 in Hx as [j Hj].
      by specialize (Hone 0%nat (S j) a x eq_refl Hj Hact Hxa). }
    destruct (find_None_filter isActions
                (λ col, negb (mobileHighlight col)) l Hnone) as [Hf Hg].
    rewrite Hf in IH. simpl in IH. rewrite app_nil_r in IH.
    rewrite app_assoc, <- Permutation_cons_append. by constructor.
  - destruct (mobileHighlight a); simpl.
    + by constructor.
    + rewrite <- Permutation_middle. by constructor.
Qed.

Lemma List_filter_filter {A : Type} (f : A → bool) (P : A → Prop)
    `{!∀ x, Decision (P x)} (l : list A) :
  (∀ x, f x = true ↔ P x) → List.filter f l = filter P l.
Proof.
  intros Hf. induction l as [|a l IH]; [done|].
  cbn [List.filter]. rewrite filter_cons, IH.
  destruct (f a) eqn:Ha; case_decide as HP; try done.
  - by apply Hf in Ha.
  - apply Hf in HP. congruence.
Qed.

(** [find] gives the first element that passes the test. *)
Lemma find_first {A : Type} (f : A → bool) (l : list A) (x : A) :
  List.find f l = Some x
  ↔ ∃ i : nat, l !! i = Some x ∧ f x = true
      ∧ ∀ (j : nat) (y : A), (j < i)%nat → l !! j = Some y → f y = false.
Proof.
  induction l as [|a l IH]; simpl.
  - split; [done|]. by intros (i & Hi & _).
  - destruct (f a) eqn:Ha.
    + split.
      * intros [= <-]. exists 0%nat. split_and!; [done|done|].
        intros j y Hj. lia.
      * intros ([|i] & Hi & Hx & Hfirst); [by simplify_eq/=|].
        specialize (Hfirst 0%nat a ltac:(lia) eq_refl). congruence.
    + rewrite IH. split.
      * intros (i & Hi & Hx & Hfirst). exists (S i).
        split_and!; [done|done|].
        intros [|j] y Hj Hy; simplify_eq/=; [done|].
        apply (Hfirst j y); [lia|done].
      * intros ([|i] & Hi & Hx & Hfirst); simplify_eq/=; [congruence|].
        exists i. split_and!; [done|done|].
        intros j y Hj Hy. apply (Hfirst (S j) y); [lia|done].
Qed.

(** C7, as the code has it.  Each card has, in this order, (a) a region
    with the columns whose [mobileHighlight] is set, in column order and
    without labels, (b) a region with the columns neither highlighted nor
    headed "Actions", in column order and with their labels, and (c), when
    some column is headed "Actions", a last region with the first such
    column, whatever its highlight flag.  Groups (a) and (b), and (b) and
    (c), never share a column, and every column appears in exactly one
    group provided that no column headed "Actions" is highlighted and at
    most one column is headed "Actions". *)
Theorem card_groups (props : DataTableProps) (currentPage : Z) :
  highlightColumns props
  = filter (λ col, mobileHighlight col = true) (columns props)
  ∧ gridColumns props
    = filter (λ col, mobileHighlight col = false ∧ header col ≠ "Actions")
             (columns props)
  ∧ (∀ col,
       actionsColumn props = Some col
       ↔ ∃ i : nat,
           columns props !! i = Some col ∧ header col = "Actions"
           ∧ ∀ (j : nat) (cj : Column),
               (j < i)%nat → columns props !! j = Some cj →
               header cj ≠ "Actions")
  ∧ (actionsColumn props = None
     ↔ ∀ col, col ∈ columns props → header col ≠ "Actions")
  ∧ (∀ (i : nat) (row : Row),
       paginatedData props currentPage !! i = Some row →
       ∃ card, MobileCardView props currentPage !! i = Some card
         ∧ card_children card
           = [ HighlightRegion
                 (getCellContent row <$> highlightColumns props);
               GridRegion
                 ((λ col, (header col, getCellContent row col))
                    <$> gridColumns props) ]
             ++ match actionsColumn props with
                | Some col => [ActionsRegion (getCellContent row col)]
                | None => []
                end
         ∧ card_highlight card
           = getCellContent row <$> highlightColumns props
         ∧ card_grid card
           = (λ col, (header col, getCellContent row col))
               <$> gridColumns props
         ∧ card_actions card
           = getCellContent row <$> actionsColumn props)
  ∧ (∀ col, col ∈ highlightColumns props → col ∉ gridColumns props)
  ∧ (∀ col, col ∈ gridColumns props → actionsColumn props ≠ Some col)
  ∧ ((∀ col, col ∈ columns props → header col = "Actions" →
             mobileHighlight col = false) →
     (∀ (i j : nat) ci cj,
        columns props !! i = Some ci → columns props !! j = Some cj →
        header ci = "Actions" → header cj = "Actions" → i = j) →
     highlightColumns props ++ gridColumns props
     ++ option_list (actionsColumn props)
     ≡ₚ columns props).
Proof.
  assert (gridColumns props
          = filter (λ col, mobileHighlight col = false
                           ∧ header col ≠ "Actions") (columns props))
    as Hgrid.
  { apply List_filter_filter. intros col.
    rewrite andb_true_iff, !negb_true_iff.
    rewrite <- (not_true_iff_false (isActions col)), isActions_header.
    done. }
  assert (∀ col,
            actionsColumn props = Some col
            ↔ ∃ i : nat,
                columns props !! i = Some col ∧ header col = "Actions"
                ∧ ∀ (j : nat) (cj : Column),
                    (j < i)%nat → columns props !! j = Some cj →
                    header cj ≠ "Actions") as Hfirst.
  { intros col. unfold actionsColumn. rewrite find_guarded, find_first.
    split; intros (i & Hi & Hh & Hbefore); exists i.
    - split_and!; [done|by apply isActions_header|].
      intros j cj Hj Hcj Hact. apply isActions_header in Hact.
      specialize (Hbefore j cj Hj Hcj). congruence.
    - split_and!; [done|by apply isActions_header|].
      intros j cj Hj Hcj. apply not_true_iff_false.
      rewrite isActions_header. by apply (Hbefore j cj). }
  split_and!; [|exact Hgrid|exact Hfirst|..].
  - apply List_filter_filter. intros col. done.
  - unfold actionsColumn. rewrite find_guarded. split.
    + intros Hf col Hin Hh.
      apply list_elem_of_In in Hin. apply isActions_header in Hh.
      pose proof (find_none _ _ Hf col Hin) as Hn. congruence.
    + intros Hno. destruct (List.find _ _) as [col|] eqn:Hf; [|done].
      apply find_some in Hf as [Hin Hact].
      apply list_elem_of_In in Hin. apply isActions_header in Hact.
      by destruct (Hno col Hin).
  - intros i row Hrow. unfold MobileCardView.
    rewrite list_lookup_fmap, Hrow. simpl. eexists. split; [done|].
    unfold card_highlight, card_grid, card_actions. simpl.
    destruct (actionsColumn props); simpl; by rewrite ?app_nil_r.
  - intros col. unfold highlightColumns. rewrite Hgrid.
    rewrite elem_of_List_filter, list_elem_of_filter.
    intros [_ Hhl] [[Hno _] _]. congruence.
  - intros col. rewrite Hgrid, list_elem_of_filter.
    intros [[_ Hh] _] Hact. apply Hfirst in Hact as (_ & _ & Hact & _).
    done.
  - intros Hhl Hone. unfold highlightColumns, gridColumns, actionsColumn.
    rewrite find_guarded. apply groups_permutation.
    + intros col Hin Hact. apply Hhl; [done|by apply isActions_header].
    + intros i j ci cj Hi Hj Hci Hcj.
      apply (Hone i j ci cj); by (done || apply isActions_header).
Qed.

Lemma card_groups_witness :
  highlightColumns (paginated [titleColumn; idColumn; plainActions] 3)
  ++ gridColumns (paginated [titleColumn; idColumn; plainActions] 3)
  ++ option_list
       (actionsColumn (paginated [titleColumn; idColumn; plainActions] 3))
  ≡ₚ [titleColumn; idColumn; plainActions].
Proof.
  apply (card_groups (paginated [titleColumn; idColumn; plainActions] 3) 1).
  - intros col Hin Hh. simpl in Hin.
    repeat (apply elem_of_cons in Hin as [->|Hin];
            [first [discriminate Hh | reflexivity]|]).
    by apply not_elem_of_nil in Hin.
  - intros i j ci cj Hi Hj Hci Hcj. simpl in Hi, Hj.
    destruct i as [|[|[|i]]]; simplify_eq/=;
      destruct j as [|[|[|j]]]; by simplify_eq/=.
Defined.

(** C7, as stated, fails.  A highlighted column headed "Actions" is drawn
    twice on every card, in group (a) and again in group (c); and of two
    columns headed "Actions" the second is drawn in no group. *)
Lemma card_groups_counterexample :
  highlightColumns (paginated [highlightedActions] 1)
  = [highlightedActions]
  ∧ actionsColumn (paginated [highlightedActions] 1)
    = Some highlightedActions
  ∧ (card_highlight <$> MobileCardView (paginated [highlightedActions] 1) 1)
    = [[RElement "button" []]]
  ∧ (card_actions <$> MobileCardView (paginated [highlightedActions] 1) 1)
    = [Some (RElement "button" [])]
  ∧ ¬ (highlightColumns (paginated [highlightedActions] 1)
       ++ gridColumns (paginated [highlightedActions] 1)
       ++ option_list (actionsColumn (paginated [highlightedActions] 1))
       ≡ₚ columns (paginated [highlightedActions] 1))
  ∧ highlightColumns (paginated [plainActions; linkActions] 1)
    ++ gridColumns (paginated [plainActions; linkActions] 1)
    ++ option_list (actionsColumn (paginated [plainActions; linkActions] 1))
    = [plainActions]
  ∧ ¬ (highlightColumns (paginated [plainActions; linkActions] 1)
       ++ gridColumns (paginated [plainActions; linkActions] 1)
       ++ option_list
            (actionsColumn (paginated [plainActions; linkActions] 1))
       ≡ₚ columns (paginated [plainActions; linkActions] 1)).
Proof.
  split_and!; try reflexivity.
  - intros H. apply Permutation_length in H. discriminate H.
  - intros H. apply Permutation_length in H. discriminate H.
Qed.

(** *** The grid layout *)

(** C8. The grid has one header cell per column, in column order, and for
    every record of the current slice one body row with one cell per
    column, in column order, filled by [getCellContent], the projection the
    cards use.  A column with [hideOnMobile] set keeps its header cell and
    its cell in every body row. *)
Theorem grid_cells (props : DataTableProps) (currentPage : Z) :
  let grid := DesktopTableView props currentPage in
  th_content <$> thead grid = header <$> columns props
  ∧ length (tbody grid) = length (paginatedData props currentPage)
  ∧ (∀ (i : nat) (row : Row),
       paginatedData props currentPage !! i = Some row →
       ∃ tr, tbody grid !! i = Some tr
         ∧ tr_key tr = JS.get row "id"
         ∧ td_content <$> tr_cells tr
           = getCellContent row <$> columns props)
  ∧ (∀ (j : nat) (col : Column),
       columns props !! j = Some col → hideOnMobile col = true →
       (∃ th, thead grid !! j = Some th ∧ th_content th = header col)
       ∧ ∀ (i : nat) (row : Row),
           paginatedData props currentPage !! i = Some row →
           ∃ tr td, tbody grid !! i = Some tr
             ∧ tr_cells tr !! j = Some td
             ∧ td_content td = getCellContent row col)
  ∧ (loading props = false → dataLength props ≠ 0 →
     view_table (view props currentPage) = Some grid).
Proof.
  intros grid. subst grid. unfold DesktopTableView. simpl. split_and!.
  - by rewrite <- list_fmap_compose.
  - by rewrite length_fmap.
  - intros i row Hrow. rewrite list_lookup_fmap, Hrow. simpl.
    eexists. split; [done|]. simpl. split; [done|].
    by rewrite <- list_fmap_compose.
  - intros j col Hcol Hhide. split.
    + rewrite list_lookup_fmap, Hcol. simpl. by eexists.
    + intros i row Hrow. rewrite list_lookup_fmap, Hrow. simpl.
      eexists _, _. split; [done|]. simpl.
      rewrite list_lookup_fmap, Hcol. by simpl.
  - intros Hl Hd. unfold view. rewrite Hl.
    by destruct (Z.eqb_spec (dataLength props) 0).
Qed.

Lemma grid_cells_witness :
  th_content
    <$> thead (DesktopTableView (paginated [idColumn; nameColumn] 23) 3)
  = ["Id"; "Name"]
  ∧ (∃ th,
       thead (DesktopTableView (paginated [idColumn; nameColumn] 23) 3)
         !! 1%nat = Some th
       ∧ th_content th = "Name").
Proof.
  destruct (grid_cells (paginated [idColumn; nameColumn] 23) 3)
    as (Hhead & _ & _ & Hhide & _).
  split; [exact Hhead|].
  apply (Hhide 1%nat nameColumn); reflexivity.
Defined.

(** *** Loading and empty tables *)

(** C9. While [loading] is set the render gives the loading indicator
    alone: no cards, no grid, no control strip.  With [loading] off and no
    record, [totalPages] is 0 and the render gives [emptyMessage] alone:
    no cards, no grid, no control strip. *)
Theorem loading_and_empty (props : DataTableProps) (currentPage : Z) :
  (loading props = true →
   view props currentPage = VLoading
   ∧ view_cards (view props currentPage) = None
   ∧ view_table (view props currentPage) = None
   ∧ view_controls (view props currentPage) = None)
  ∧ (loading props = false → data props = [] →
     (pageSize props ≠ 0 → totalPages props = 0)
     ∧ view props currentPage = VEmpty (emptyMessage props)
     ∧ view_cards (view props currentPage) = None
     ∧ view_table (view props currentPage) = None
     ∧ view_controls (view props currentPage) = None).
Proof.
  unfold view. split.
  - by intros ->.
  - intros -> Hd. unfold totalPages, dataLength. rewrite Hd. simpl.
    split; [intros _; apply ceil_div_0|done].
Qed.

Lemma loading_and_empty_witness :
  totalPages (paginated [idColumn] 0) = 0
  ∧ view (paginated [idColumn] 0) 1 = VEmpty "No data available".
Proof.
  destruct (loading_and_empty (paginated [idColumn] 0) 1) as [_ H].
  destruct H as (HT & Hv & _); [reflexivity|reflexivity|].
  split; [apply HT; discriminate|exact Hv].
Defined.

(** *** Cell contents *)

(** C10. For a column whose accessor names a property, the cell is the
    text [String(row[accessor])]: "null" for null, "true" and "false" for
    the booleans, the decimal digits for a safe integer and for a bigint,
    "NaN" and "Infinity" with its sign, and a string as it is.  When the
    row does not carry the property, or carries it as [undefined], the
    cell is the text "undefined", the same for every such cell and not the
    empty text, and nothing fails. *)
Theorem getCellContent_field (row : Row) (column : Column) (k : string) :
  accessor column = Field k →
  getCellContent row column = RText (JS.ToString (JS.get row k))
  ∧ getCellContent row column
    = RText match row !! k with
            | None => "undefined"
            | Some JS.VUndefined => "undefined"
            | Some JS.VNull => "null"
            | Some (JS.VBool true) => "true"
            | Some (JS.VBool false) => "false"
            | Some (JS.VNum n _) => pretty n
            | Some JS.VNaN => "NaN"
            | Some (JS.VInfinity false) => "Infinity"
            | Some (JS.VInfinity true) => "-Infinity"
            | Some (JS.VBigInt n) => pretty n
            | Some (JS.VStr s) => s
            end
  ∧ (row !! k = None ∨ row !! k = Some JS.VUndefined →
     getCellContent row column = RText "undefined"
     ∧ getCellContent row column ≠ RText "").
Proof.
  intros Hacc. unfold getCellContent, JS.get. rewrite Hacc.
  split_and!; [done| |by intros [-> | ->]].
  by destruct (row !! k) as [[| |[]| | |[]| |]|].
Qed.

Lemma getCellContent_field_witness :
  getCellContent mixedRow (fieldColumn "name") = RText "undefined"
  ∧ getCellContent mixedRow (fieldColumn "nick") = RText "undefined"
  ∧ getCellContent mixedRow (fieldColumn "owner") = RText "null"
  ∧ getCellContent mixedRow (fieldColumn "active") = RText "true"
  ∧ getCellContent mixedRow (fieldColumn "age") = RText "42"
  ∧ getCellContent mixedRow (fieldColumn "balance") = RText "-7"
  ∧ getCellContent mixedRow (fieldColumn "visits")
    = RText "9007199254740991"
  ∧ getCellContent mixedRow (fieldColumn "ratio") = RText "NaN"
  ∧ getCellContent mixedRow (fieldColumn "limit") = RText "-Infinity"
  ∧ getCellContent mixedRow (fieldColumn "stamp")
    = RText "590295810358705651712"
  ∧ getCellContent mixedRow (fieldColumn "id") = RText "r1".
Proof.
  split_and!.
  - apply (getCellContent_field mixedRow (fieldColumn "name") "name").
    + reflexivity.
    + left. reflexivity.
  - apply (getCellContent_field mixedRow (fieldColumn "nick") "nick").
    + reflexivity.
    + right. reflexivity.
  - exact (proj1 (proj2 (getCellContent_field mixedRow
                           (fieldColumn "owner") "owner" eq_refl))).
  - exact (proj1 (proj2 (getCellContent_field mixedRow
                           (fieldColumn "active") "active" eq_refl))).
  - exact (proj1 (proj2 (getCellContent_field mixedRow
                           (fieldColumn "age") "age" eq_refl))).
  - exact (proj1 (proj2 (getCellContent_field mixedRow
                           (fieldColumn "balance") "balance" eq_refl))).
  - exact (proj1 (proj2 (getCellContent_field mixedRow
                           (fieldColumn "visits") "visits" eq_refl))).
  - exact (proj1 (proj2 (getCellContent_field mixedRow
                           (fieldColumn "ratio") "ratio" eq_refl))).
  - exact (proj1 (proj2 (getCellContent_field mixedRow
                           (fieldColumn "limit") "limit" eq_refl))).
  - exact (proj1 (proj2 (getCellContent_field mixedRow
                           (fieldColumn "stamp") "stamp" eq_refl))).
  - exact (proj1 (proj2 (getCellContent_field mixedRow
                           (fieldColumn "id") "id" eq_refl))).
Defined.


(** * Further properties of the component *)

(** ** The window on any input *)

Lemma page_numbers_Num (l : list Z) : page_numbers (Num <$> l) = l.
Proof.
  unfold page_numbers. induction l as [|n l IH]; [done|].
  simpl. f_equal. exact IH.
Qed.

Lemma seqZ_StronglySorted (n : nat) (m : Z) :
  StronglySorted Z.lt (seqZ m (Z.of_nat n)).
Proof.
  revert m. induction n as [|n IH]; intros m.
  - rewrite seqZ_nil by lia. constructor.
  - rewrite seqZ_cons by lia.
    replace (Z.pred (Z.of_nat (S n))) with (Z.of_nat n) by lia.
    constructor; [apply IH|].
    apply Forall_forall. intros k Hk. apply elem_of_seqZ in Hk. lia.
Qed.

Lemma allPages_StronglySorted (n : Z) : StronglySorted Z.lt (allPages n).
Proof.
  unfold allPages. destruct (Z_le_gt_dec n 0) as [Hn|Hn].
  - rewrite seqZ_nil by lia. constructor.
  - rewrite <- (Z2Nat.id n) by lia. apply seqZ_StronglySorted.
Qed.

Ltac StronglySorted_explicit :=
  repeat (constructor; [|repeat (constructor; [lia|]); by constructor]);
  constructor.

(** X1. Whatever the current page (even one past the end), the window has
    at most 7 entries and its page numbers are strictly increasing and all
    lie in [1, totalPages]. *)
Theorem getPageNumbers_increasing (currentPage totalPages : Z) :
  let window := getPageNumbers currentPage totalPages in
  (length window ≤ 7)%nat
  ∧ StronglySorted Z.lt (page_numbers window)
  ∧ ∀ n : Z, Num n ∈ window → 1 ≤ n ≤ totalPages.
Proof.
  intros window. subst window.
  destruct (Z_le_gt_dec totalPages 5) as [Hs|Hs].
  - rewrite window_small by done. rewrite page_numbers_Num.
    split_and!.
    + rewrite length_fmap. unfold allPages. rewrite length_seqZ. lia.
    + apply allPages_StronglySorted.
    + intros n Hin. apply list_elem_of_fmap in Hin as (m & [= ->] & Hm).
      unfold allPages in Hm. apply elem_of_seqZ in Hm. lia.
  - destruct (window_cases currentPage totalPages ltac:(lia)) as
      [[H ->]|[[H ->]|[H ->]]].
    all: split_and!; [simpl; lia|simpl; StronglySorted_explicit|].
    all: intros n Hin; unfold ellipsis in Hin;
      repeat (apply elem_of_cons in Hin as [Hin|Hin];
              [first [discriminate Hin | injection Hin as ->; lia]|]);
      by apply not_elem_of_nil in Hin.
Qed.

(** X2. As soon as there is a page, the window opens with page 1 and
    closes with the last page, whatever the current page. *)
Theorem getPageNumbers_first_last (currentPage totalPages : Z) :
  1 ≤ totalPages →
  head (getPageNumbers currentPage totalPages) = Some (Num 1)
  ∧ last (getPageNumbers currentPage totalPages) = Some (Num totalPages).
Proof.
  intros HT. destruct (Z_le_gt_dec totalPages 5) as [Hs|Hs].
  - rewrite window_small by done. unfold allPages. split.
    + by rewrite seqZ_cons by lia.
    + rewrite last_lookup, length_fmap, length_seqZ, list_lookup_fmap.
      rewrite lookup_seqZ_lt by lia. simpl. do 2 f_equal. lia.
  - by destruct (window_cases currentPage totalPages ltac:(lia)) as
      [[H ->]|[[H ->]|[H ->]]].
Qed.

Lemma getPageNumbers_first_last_witness :
  head (getPageNumbers 40 12) = Some (Num 1)
  ∧ last (getPageNumbers 40 12) = Some (Num 12).
Proof. apply (getPageNumbers_first_last 40 12). lia. Defined.

(** Membership of a number in a list of entries written out. *)
Ltac elem_of_Num :=
  rewrite ?elem_of_cons;
  repeat first [left; apply (f_equal Num); lia | right].

(** X3. For a current page in [1, totalPages] the window holds the current
    page and each of its neighbours that exists: the page shown and the
    ones before and after it are one click away. *)
Theorem getPageNumbers_around_current (currentPage totalPages : Z) :
  1 ≤ currentPage ≤ totalPages →
  let window := getPageNumbers currentPage totalPages in
  Num currentPage ∈ window
  ∧ (1 < currentPage → Num (currentPage - 1) ∈ window)
  ∧ (currentPage < totalPages → Num (currentPage + 1) ∈ window).
Proof.
  intros Hc window. subst window.
  destruct (Z_le_gt_dec totalPages 5) as [Hs|Hs].
  - rewrite window_small by done. unfold allPages.
    split_and!; intros; apply list_elem_of_fmap; eexists;
      (split; [done|]); apply elem_of_seqZ; lia.
  - destruct (window_cases currentPage totalPages ltac:(lia)) as
      [[H ->]|[[H ->]|[H ->]]].
    + assert (currentPage = 1 ∨ currentPage = 2 ∨ currentPage = 3)
        as [-> | [-> | ->]] by lia;
        split_and!; intros; elem_of_Num.
    + assert (currentPage = totalPages - 2 ∨ currentPage = totalPages - 1
              ∨ currentPage = totalPages) as [-> | [-> | ->]] by lia;
        split_and!; intros; elem_of_Num.
    + split_and!; intros; elem_of_Num.
Qed.

Lemma getPageNumbers_around_current_witness :
  Num 3 ∈ getPageNumbers 3 10
  ∧ (1 < 3 → Num (3 - 1) ∈ getPageNumbers 3 10)
  ∧ (3 < 10 → Num (3 + 1) ∈ getPageNumbers 3 10).
Proof. apply (getPageNumbers_around_current 3 10). lia. Defined.

(** ** What the strip shows *)

Lemma active_pages_imap (currentPage : Z) (g : nat → nat)
    (window : list NumOrStr) :
  active_pages (imap (λ i, pageItem currentPage (g i)) window)
  = filter (λ n, currentPage = n) (page_numbers window).
Proof.
  revert g. induction window as [|[n|s] window IH]; intros g; [done|..].
  - rewrite imap_cons. unfold active_pages, page_numbers in *. simpl.
    rewrite filter_cons. specialize (IH (g ∘ S)).
    case_bool_decide; case_decide; try done; simpl; f_equal; exact IH.
  - rewrite imap_cons, pageItem_Str.
    unfold active_pages, page_numbers in *. simpl. exact (IH (g ∘ S)).
Qed.

Lemma filter_eq_NoDup (x : Z) (l : list Z) :
  NoDup l →
  filter (λ n, x = n) l = if bool_decide (x ∈ l) then [x] else [].
Proof.
  induction 1 as [|y l Hy Hnd IH]; [done|].
  rewrite filter_cons, IH. destruct (decide (x = y)) as [<-|Hxy].
  - rewrite bool_decide_eq_false_2 by done.
    rewrite bool_decide_eq_true_2; [done|]. apply list_elem_of_here.
  - case_bool_decide as Hin.
    + rewrite bool_decide_eq_true_2; [done|].
      by apply list_elem_of_further.
    + rewrite bool_decide_eq_false_2; [done|].
      rewrite not_elem_of_cons. done.
Qed.

Lemma StronglySorted_lt_NoDup (l : list Z) :
  StronglySorted Z.lt l → NoDup l.
Proof.
  induction 1 as [|x l _ IH Hall]; constructor; [|done].
  intros Hin. rewrite Forall_forall in Hall. specialize (Hall x Hin). lia.
Qed.

Lemma window_NoDup (currentPage totalPages : Z) :
  NoDup (page_numbers (getPageNumbers currentPage totalPages)).
Proof.
  destruct (Z_le_gt_dec totalPages 5) as [Hs|Hs].
  - rewrite window_small by done. rewrite page_numbers_Num.
    apply StronglySorted_lt_NoDup, allPages_StronglySorted.
  - destruct (window_cases currentPage totalPages ltac:(lia)) as
      [[H ->]|[[H ->]|[H ->]]]; simpl; NoDup_explicit.
Qed.

Lemma elem_of_page_numbers (n : Z) (window : list NumOrStr) :
  n ∈ page_numbers window ↔ Num n ∈ window.
Proof.
  unfold page_numbers. rewrite list_elem_of_omap. split.
  - intros ([m|s] & Hin & Heq); simplify_eq. done.
  - intros Hin. by exists (Num n).
Qed.

(** X4. When the strip is drawn for a current page in [1, totalPages],
    exactly one page button carries the active style, and it is the one of
    the current page; drawn for a page past the end, no button is
    active. *)
Theorem one_active_button (props : DataTableProps) (currentPage : Z) :
  loading props = false → pagination props = true →
  1 < totalPages props →
  ∃ strip : Controls,
    view_controls (view props currentPage) = Some strip
    ∧ (1 ≤ currentPage ≤ totalPages props →
       active_pages (page_items strip) = [currentPage])
    ∧ (totalPages props < currentPage →
       active_pages (page_items strip) = []).
Proof.
  intros Hl Hp HT.
  destruct (strip_rendered props currentPage Hl Hp HT)
    as (Hv & strip & Hs & _ & _ & Hitems & _).
  exists strip. rewrite Hv, Hs, Hitems.
  rewrite (active_pages_imap currentPage id).
  rewrite filter_eq_NoDup by apply window_NoDup.
  split_and!; [done|..].
  - intros Hc. rewrite bool_decide_eq_true_2; [done|].
    apply elem_of_page_numbers.
    destruct (Z_le_gt_dec (totalPages props) 5) as [Hsm|Hsm].
    + rewrite window_small by done. apply list_elem_of_fmap.
      eexists. split; [done|]. apply elem_of_seqZ. lia.
    + destruct (window_cases currentPage (totalPages props) ltac:(lia))
        as [[H ->]|[[H ->]|[H ->]]].
      * assert (currentPage = 1 ∨ currentPage = 2 ∨ currentPage = 3)
          as [-> | [-> | ->]] by lia; elem_of_Num.
      * assert (currentPage = totalPages props - 2
                ∨ currentPage = totalPages props - 1
                ∨ currentPage = totalPages props)
          as [Hc' | [Hc' | Hc']] by lia; rewrite Hc'; elem_of_Num.
      * elem_of_Num.
  - intros Hc. rewrite bool_decide_eq_false_2; [done|].
    rewrite elem_of_page_numbers. intros Hin.
    destruct (Z_le_gt_dec (totalPages props) 5) as [Hsm|Hsm].
    + rewrite window_small in Hin by done.
      apply list_elem_of_fmap in Hin as (m & [= ->] & Hm).
      unfold allPages in Hm. apply elem_of_seqZ in Hm. lia.
    + destruct (window_cases currentPage (totalPages props) ltac:(lia))
        as [[H Hw]|[[H Hw]|[H Hw]]]; [lia| |lia].
      rewrite Hw in Hin. unfold ellipsis in Hin.
      repeat (apply elem_of_cons in Hin as [Hin|Hin];
              [first [discriminate Hin | injection Hin as Hin; lia]|]).
      by apply not_elem_of_nil in Hin.
Qed.

Lemma one_active_button_witness :
  ∃ strip : Controls,
    view_controls (view (paginated [idColumn] 95) 7) = Some strip
    ∧ (1 ≤ 7 ≤ totalPages (paginated [idColumn] 95) →
       active_pages (page_items strip) = [7])
    ∧ (totalPages (paginated [idColumn] 95) < 7 →
       active_pages (page_items strip) = []).
Proof.
  apply (one_active_button (paginated [idColumn] 95) 7); reflexivity.
Defined.

(** X5. The line "Showing a to b of n" agrees with the rows on screen:
    for a current page in [1, totalPages] and a positive page size,
    [1 ≤ a ≤ b ≤ n], [n] is the number of records, and the slice holds
    exactly the [b - a + 1] records numbered [a] to [b]. *)
Theorem showing_matches_slice (props : DataTableProps) (currentPage : Z) :
  loading props = false → pagination props = true →
  0 < pageSize props → 1 < totalPages props →
  1 ≤ currentPage ≤ totalPages props →
  ∃ strip : Controls,
    view_controls (view props currentPage) = Some strip
    ∧ 1 ≤ showing_from strip ≤ showing_to strip
    ∧ showing_to strip ≤ showing_of strip
    ∧ showing_of strip = Z.of_nat (length (data props))
    ∧ Z.of_nat (length (paginatedData props currentPage))
      = showing_to strip - showing_from strip + 1
    ∧ ∀ k : Z,
        showing_from strip ≤ k ≤ showing_to strip →
        paginatedData props currentPage
          !! Z.to_nat (k - showing_from strip)
        = data props !! Z.to_nat (k - 1).
Proof.
  intros Hl Hp Hs HT Hc.
  destruct (strip_rendered props currentPage Hl Hp HT) as (Hv & _).
  rewrite Hv. unfold PaginationControls. rewrite Hp.
  destruct (Z.leb_spec (totalPages props) 1); [lia|]. simpl.
  eexists. split; [done|]. simpl.
  pose proof (ceil_div_bounds (dataLength props) (pageSize props) Hs) as Hb.
  fold (totalPages props) in Hb.
  rewrite (paginatedData_length props Hp Hs) by lia.
  assert (startIndex props currentPage < dataLength props) as Hstart
    by (unfold startIndex; nia).
  assert (0 ≤ startIndex props currentPage) as Hstart0
    by (unfold startIndex; nia).
  assert (startIndex props currentPage < endIndex props currentPage)
    as Hend by (unfold endIndex; lia).
  split_and!; [lia..|done|lia|].
  intros k Hk.
  replace (k - (startIndex props currentPage + 1))
    with ((k - 1) - startIndex props currentPage) by lia.
  apply (paginatedData_lookup props Hp Hs); lia.
Qed.

Lemma showing_matches_slice_witness :
  ∃ strip : Controls,
    view_controls (view (paginated [idColumn] 23) 3) = Some strip
    ∧ 1 ≤ showing_from strip ≤ showing_to strip
    ∧ showing_to strip ≤ showing_of strip
    ∧ showing_of strip = Z.of_nat (length (idRows 23))
    ∧ Z.of_nat (length (paginatedData (paginated [idColumn] 23) 3))
      = showing_to strip - showing_from strip + 1
    ∧ ∀ k : Z,
        showing_from strip ≤ k ≤ showing_to strip →
        paginatedData (paginated [idColumn] 23) 3
          !! Z.to_nat (k - showing_from strip)
        = idRows 23 !! Z.to_nat (k - 1).
Proof.
  apply (showing_matches_slice (paginated [idColumn] 23) 3);
    vm_compute; first [reflexivity | split; discriminate].
Defined.

(** X6. For a positive page size the strip is drawn exactly when the table
    is not loading, pagination is on and there are more records than fit on
    one page. *)
Theorem strip_iff_more_than_a_page (props : DataTableProps)
    (currentPage : Z) :
  0 < pageSize props →
  is_Some (view_controls (view props currentPage))
  ↔ loading props = false ∧ pagination props = true
    ∧ pageSize props < Z.of_nat (length (data props)).
Proof.
  intros Hs.
  pose proof (ceil_div_bounds (dataLength props) (pageSize props) Hs) as Hb.
  fold (totalPages props) in Hb. fold (dataLength props). split.
  - intros Hsome.
    destruct (strip_cases props currentPage) as [Hnone|(Hl & Hp & HT)].
    + rewrite Hnone in Hsome. by destruct Hsome.
    + split_and!; [done|done|nia].
  - intros (Hl & Hp & Hlen).
    assert (1 < totalPages props) as HT by nia.
    destruct (strip_rendered props currentPage Hl Hp HT)
      as (Hv & strip & Hstrip & _).
    rewrite Hv, Hstrip. by eexists.
Qed.

Lemma strip_iff_more_than_a_page_witness :
  is_Some (view_controls (view (paginated [idColumn] 11) 1))
  ∧ ¬ is_Some (view_controls (view (paginated [idColumn] 10) 1)).
Proof.
  split.
  - apply (strip_iff_more_than_a_page (paginated [idColumn] 11) 1);
      [reflexivity|]. split_and!; reflexivity.
  - intros H.
    apply (strip_iff_more_than_a_page (paginated [idColumn] 10) 1) in H;
      [|reflexivity].
    destruct H as (_ & _ & H). vm_compute in H. discriminate H.
Defined.

(** ** The slice on any input *)

Lemma slice_sublist {A : Type} (arr : list A) (start stop : Z) :
  JS.slice arr start stop `sublist_of` arr.
Proof.
  unfold JS.slice. etrans; [apply sublist_take|apply sublist_drop].
Qed.

Lemma slice_length_le {A : Type} (arr : list A) (start stop : Z) :
  start ≤ stop →
  Z.of_nat (length (JS.slice arr start stop)) ≤ stop - start.
Proof.
  intros Hle. unfold JS.slice, JS.rel_index. cbv zeta.
  rewrite length_take, length_drop.
  destruct (Z.ltb_spec start 0), (Z.ltb_spec stop 0); lia.
Qed.

Lemma paginatedData_sublist (props : DataTableProps) (currentPage : Z) :
  paginatedData props currentPage `sublist_of` data props.
Proof.
  unfold paginatedData.
  destruct (pagination props); [apply slice_sublist|done].
Qed.

(** X7. Whatever the current page (zero, negative or past the end), the
    visible slice is a run of the records in their original order, with
    nothing added or reordered, and with pagination on and a page size that
    is not negative it never holds more than [pageSize] records. *)
Theorem paginatedData_sublist_bounded (props : DataTableProps)
    (currentPage : Z) :
  paginatedData props currentPage `sublist_of` data props
  ∧ (pagination props = true → 0 ≤ pageSize props →
     Z.of_nat (length (paginatedData props currentPage)) ≤ pageSize props).
Proof.
  split; [apply paginatedData_sublist|].
  unfold paginatedData. intros -> Hs.
  pose proof (slice_length_le (data props)
                (startIndex props currentPage)
                (endIndex props currentPage)) as Hlen.
  unfold endIndex in *. lia.
Qed.

Lemma paginatedData_sublist_bounded_witness :
  paginatedData (paginated [idColumn] 23) (-1) `sublist_of` idRows 23
  ∧ Z.of_nat (length (paginatedData (paginated [idColumn] 23) (-1))) ≤ 10.
Proof.
  destruct (paginatedData_sublist_bounded (paginated [idColumn] 23) (-1))
    as [Hsub Hlen].
  split; [exact Hsub|]. apply Hlen; [reflexivity|]. vm_compute. discriminate.
Defined.

(** ** Keys *)

Lemma view_card_keys_layout (props : DataTableProps) (currentPage : Z) :
  loading props = false → dataLength props ≠ 0 →
  mobileCardView props = true →
  view_card_keys (view props currentPage) =
  (λ row : Row, JS.get row "id") <$> paginatedData props currentPage.
Proof.
  intros Hl Hd Hm. unfold view, view_card_keys. rewrite Hl, Hm.
  destruct (Z.eqb_spec (dataLength props) 0); [done|]. simpl.
  unfold MobileCardView. by rewrite <- list_fmap_compose.
Qed.

(** X8. Cards and body rows are keyed by the ids of the same records in
    the same order, and when the records carry distinct ids no key occurs
    twice on screen, whatever the current page. *)
Theorem row_keys_agree_and_distinct (props : DataTableProps)
    (currentPage : Z) :
  loading props = false → data props ≠ [] →
  (mobileCardView props = true →
   view_card_keys (view props currentPage)
   = view_row_keys (view props currentPage))
  ∧ view_row_keys (view props currentPage)
    = (λ row : Row, JS.get row "id") <$> paginatedData props currentPage
  ∧ (NoDup ((λ row : Row, JS.get row "id") <$> data props) →
     NoDup (view_row_keys (view props currentPage))).
Proof.
  intros Hl Hd.
  assert (dataLength props ≠ 0) as Hlen.
  { unfold dataLength. destruct (data props); [done|simpl; lia]. }
  rewrite view_row_keys_layout by done. split_and!; [|done|].
  - intros Hm. by apply view_card_keys_layout.
  - intros Hnd. apply (sublist_NoDup _ _ Hnd).
    apply fmap_sublist, paginatedData_sublist.
Qed.

Lemma row_keys_agree_and_distinct_witness :
  (mobileCardView (paginated [idColumn] 23) = true →
   view_card_keys (view (paginated [idColumn] 23) 3)
   = view_row_keys (view (paginated [idColumn] 23) 3))
  ∧ view_row_keys (view (paginated [idColumn] 23) 3)
    = (λ row : Row, JS.get row "id")
        <$> paginatedData (paginated [idColumn] 23) 3
  ∧ (NoDup ((λ row : Row, JS.get row "id") <$> idRows 23) →
     NoDup (view_row_keys (view (paginated [idColumn] 23) 3))).
Proof.
  apply (row_keys_agree_and_distinct (paginated [idColumn] 23) 3).
  - reflexivity.
  - vm_compute. discriminate.
Defined.

(** ** The page state across renders *)

(** X9. A render queues at most one correction: rendering again from the
    state a render leaves changes nothing further, so the reset cannot
    loop.  And while there is no record the page is left as it is, however
    large: the reset waits for records to come back. *)
Theorem render_settles (props : DataTableProps) (currentPage : Z) :
  snd (render props (snd (render props currentPage)))
  = snd (render props currentPage)
  ∧ (data props = [] → snd (render props currentPage) = currentPage).
Proof.
  simpl. split.
  - assert (queuedPage props currentPage = 1 ∧ 0 < totalPages props
            ∨ queuedPage props currentPage = currentPage
              ∧ (currentPage ≤ totalPages props ∨ totalPages props ≤ 0))
      as [[-> HT]|[-> H]].
    { unfold queuedPage.
      destruct (Z.gtb_spec currentPage (totalPages props));
        destruct (Z.gtb_spec (totalPages props) 0); simpl;
        first [left; split; [done|lia] | right; split; [done|lia]]. }
    + apply queuedPage_keeps. lia.
    + by apply queuedPage_keeps.
  - intros Hd. apply queuedPage_keeps. right.
    unfold totalPages, dataLength. rewrite Hd. simpl.
    by rewrite ceil_div_0.
Qed.

Lemma render_settles_witness :
  snd (render (paginated [idColumn] 0) 4) = 4.
Proof.
  apply (render_settles (paginated [idColumn] 0) 4). reflexivity.
Defined.

(** X10. The page state is a page that exists whenever there is one:
    every value the state cell can take under props whose page size is not
    zero is at least 1, and after a render of a table with at least one
    page it lies in [1, totalPages], whatever the props were before. *)
Theorem page_state_invariant (currentPage : Z) :
  reachable currentPage →
  1 ≤ currentPage
  ∧ ∀ props : DataTableProps,
      0 < totalPages props →
      1 ≤ snd (render props currentPage) ≤ totalPages props.
Proof.
  intros Hr. apply reachable_ge_1 in Hr. split; [done|].
  intros props HT. by apply queuedPage_in_range.
Qed.

Lemma page_state_invariant_witness :
  1 ≤ transition (paginated [idColumn] 95) 1 Last
  ∧ ∀ props : DataTableProps,
      0 < totalPages props →
      1 ≤ snd (render props (transition (paginated [idColumn] 95) 1 Last))
      ≤ totalPages props.
Proof.
  apply (page_state_invariant (transition (paginated [idColumn] 95) 1 Last)).
  apply reach_click.
  - vm_compute. discriminate.
  - apply reach_initial.
Defined.

(** ** Runs of clicks *)

Lemma transition_in_range (props : DataTableProps) (currentPage : Z)
    (ctl : Control) :
  1 ≤ currentPage ≤ totalPages props →
  1 ≤ transition props currentPage ctl ≤ totalPages props.
Proof.
  intros Hc.
  destruct (strip_cases props currentPage) as [Hnone|(Hl & Hp & HT)].
  { unfold transition. by rewrite Hnone. }
  destruct (transition_rendered props currentPage Hl Hp HT)
    as (Hfirst & Hprev & Hnext & Hlast & Hitem).
  destruct ctl as [| |i| |].
  - rewrite Hfirst. destruct (Z.eqb_spec currentPage 1); lia.
  - rewrite Hprev. destruct (Z.eqb_spec currentPage 1); lia.
  - rewrite Hitem.
    destruct (getPageNumbers currentPage (totalPages props) !! i)
      as [[n|s]|] eqn:Hi; [|done|done].
    apply list_elem_of_lookup_2 in Hi.
    by apply (getPageNumbers_in_range currentPage).
  - rewrite Hnext.
    destruct (Z.eqb_spec currentPage (totalPages props)); lia.
  - rewrite Hlast.
    destruct (Z.eqb_spec currentPage (totalPages props)); lia.
Qed.

Lemma step_transition (props : DataTableProps) (currentPage : Z)
    (ctl : Control) :
  1 ≤ currentPage ≤ totalPages props →
  step props currentPage ctl = transition props currentPage ctl
  ∧ 1 ≤ step props currentPage ctl ≤ totalPages props.
Proof.
  intros Hc. pose proof (transition_in_range props currentPage ctl Hc).
  unfold step. simpl. rewrite queuedPage_keeps by lia. done.
Qed.

Section Sessions.

Variable props : DataTableProps.
Hypothesis Hloading : loading props = false.
Hypothesis Hpagination : pagination props = true.
Hypothesis Hpages : 1 < totalPages props.

Lemma step_Next (currentPage : Z) :
  1 ≤ currentPage ≤ totalPages props →
  step props currentPage Next = Z.min (totalPages props) (currentPage + 1).
Proof.
  intros Hc. destruct (step_transition props currentPage Next Hc) as [-> _].
  destruct (transition_rendered props currentPage Hloading Hpagination
              Hpages) as (_ & _ & -> & _).
  destruct (Z.eqb_spec currentPage (totalPages props)); lia.
Qed.

Lemma step_Prev (currentPage : Z) :
  1 ≤ currentPage ≤ totalPages props →
  step props currentPage Prev = Z.max 1 (currentPage - 1).
Proof.
  intros Hc. destruct (step_transition props currentPage Prev Hc) as [-> _].
  destruct (transition_rendered props currentPage Hloading Hpagination
              Hpages) as (_ & -> & _).
  destruct (Z.eqb_spec currentPage 1); lia.
Qed.

Lemma session_Next (n : nat) (currentPage : Z) :
  1 ≤ currentPage ≤ totalPages props →
  session props currentPage (replicate n Next)
  = Z.min (totalPages props) (currentPage + Z.of_nat n).
Proof.
  revert currentPage. induction n as [|n IH]; intros c Hc.
  - simpl. lia.
  - unfold session in *. simpl. rewrite step_Next by done.
    rewrite IH by lia. lia.
Qed.

Lemma session_Prev (n : nat) (currentPage : Z) :
  1 ≤ currentPage ≤ totalPages props →
  session props currentPage (replicate n Prev)
  = Z.max 1 (currentPage - Z.of_nat n).
Proof.
  revert currentPage. induction n as [|n IH]; intros c Hc.
  - simpl. lia.
  - unfold session in *. simpl. rewrite step_Prev by done.
    rewrite IH by lia. lia.
Qed.

End Sessions.

Lemma session_in_range (props : DataTableProps) (clicks : list Control)
    (currentPage : Z) :
  1 ≤ currentPage ≤ totalPages props →
  1 ≤ session props currentPage clicks ≤ totalPages props.
Proof.
  revert currentPage. induction clicks as [|ctl clicks IH]; intros c Hc.
  - done.
  - unfold session in *. simpl. apply IH.
    by apply step_transition.
Qed.

(** X11. On a table that does not change, next and prev undo each other:
    from a page that is not the last, next then prev comes back to it, and
    from a page that is not the first, prev then next does. *)
Theorem next_prev_undo (props : DataTableProps) (currentPage : Z) :
  loading props = false → pagination props = true →
  1 < totalPages props →
  1 ≤ currentPage ≤ totalPages props →
  (currentPage < totalPages props →
   session props currentPage [Next; Prev] = currentPage)
  ∧ (1 < currentPage →
     session props currentPage [Prev; Next] = currentPage).
Proof.
  intros Hl Hp HT Hc. unfold session. simpl. split; intros H.
  - rewrite (step_Next props Hl Hp HT) by done.
    rewrite (step_Prev props Hl Hp HT) by lia. lia.
  - rewrite (step_Prev props Hl Hp HT) by done.
    rewrite (step_Next props Hl Hp HT) by lia. lia.
Qed.

Lemma next_prev_undo_witness :
  (4 < totalPages (paginated [idColumn] 95) →
   session (paginated [idColumn] 95) 4 [Next; Prev] = 4)
  ∧ (1 < 4 → session (paginated [idColumn] 95) 4 [Prev; Next] = 4).
Proof.
  apply (next_prev_undo (paginated [idColumn] 95) 4);
    vm_compute; first [reflexivity | split; discriminate].
Defined.

(** X12. Clicking next [n] times from a page in range lands on
    [min(totalPages, currentPage + n)] and clicking prev [n] times on
    [max(1, currentPage - n)]: repeated clicks stop at the last and at the
    first page instead of running past them. *)
Theorem repeated_next_prev (props : DataTableProps) (currentPage : Z)
    (n : nat) :
  loading props = false → pagination props = true →
  1 < totalPages props →
  1 ≤ currentPage ≤ totalPages props →
  session props currentPage (replicate n Next)
  = Z.min (totalPages props) (currentPage + Z.of_nat n)
  ∧ session props currentPage (replicate n Prev)
    = Z.max 1 (currentPage - Z.of_nat n).
Proof.
  intros Hl Hp HT Hc. split.
  - by apply session_Next.
  - by apply session_Prev.
Qed.

Lemma repeated_next_prev_witness :
  session (paginated [idColumn] 95) 8 (replicate 5 Next) = 10
  ∧ session (paginated [idColumn] 95) 8 (replicate 5 Prev) = 3.
Proof.
  apply (repeated_next_prev (paginated [idColumn] 95) 8 5);
    vm_compute; first [reflexivity | split; discriminate].
Defined.

(** X13. On a table that does not change, a run of clicks of any length
    never leaves [1, totalPages], and with the strip on screen every page
    can be reached from every other by as many clicks as the two page
    numbers differ. *)
Theorem every_page_reachable (props : DataTableProps) (currentPage : Z) :
  1 ≤ currentPage ≤ totalPages props →
  (∀ clicks : list Control,
     1 ≤ session props currentPage clicks ≤ totalPages props)
  ∧ (loading props = false → pagination props = true →
     1 < totalPages props →
     ∀ page : Z,
       1 ≤ page ≤ totalPages props →
       ∃ clicks : list Control,
         Z.of_nat (length clicks) = Z.abs (page - currentPage)
         ∧ session props currentPage clicks = page).
Proof.
  intros Hc. split.
  - intros clicks. by apply session_in_range.
  - intros Hl Hp HT page Hpage.
    destruct (Z_le_gt_dec currentPage page) as [Hle|Hgt].
    + exists (replicate (Z.to_nat (page - currentPage)) Next).
      rewrite length_replicate, (session_Next props Hl Hp HT) by done. lia.
    + exists (replicate (Z.to_nat (currentPage - page)) Prev).
      rewrite length_replicate, (session_Prev props Hl Hp HT) by done. lia.
Qed.

Lemma every_page_reachable_witness :
  (∀ clicks : list Control,
     1 ≤ session (paginated [idColumn] 95) 2 clicks
     ≤ totalPages (paginated [idColumn] 95))
  ∧ ∃ clicks : list Control,
      Z.of_nat (length clicks) = Z.abs (9 - 2)
      ∧ session (paginated [idColumn] 95) 2 clicks = 9.
Proof.
  destruct (every_page_reachable (paginated [idColumn] 95) 2)
    as [Hrange Hreach].
  - vm_compute. split; discriminate.
  - split; [exact Hrange|].
    apply Hreach; vm_compute; first [reflexivity | split; discriminate].
Defined.

(** X14. When every record fits on one page (pagination on, positive page
    size, not loading), there is exactly one page, the first render shows
    every record in order and no strip is drawn. *)
Theorem single_page_shows_all (props : DataTableProps) :
  loading props = false → pagination props = true →
  0 < pageSize props → data props ≠ [] →
  Z.of_nat (length (data props)) ≤ pageSize props →
  totalPages props = 1
  ∧ paginatedData props 1 = data props
  ∧ render props 1 = (view props 1, 1)
  ∧ view_row_keys (view props 1)
    = (λ row : Row, JS.get row "id") <$> data props
  ∧ view_controls (view props 1) = None.
Proof.
  intros Hl Hp Hs Hd Hlen.
  pose proof (ceil_div_bounds (dataLength props) (pageSize props) Hs) as Hb.
  fold (totalPages props) in Hb.
  assert (0 < dataLength props) as Hpos.
  { unfold dataLength. destruct (data props); [done|simpl; lia]. }
  assert (totalPages props = 1) as HT by (unfold dataLength in *; nia).
  assert (paginatedData props 1 = data props) as Hall.
  { rewrite (paginatedData_take_drop props Hp Hs) by lia. simpl.
    apply take_ge. lia. }
  split_and!; [done|done|..].
  - unfold render. by rewrite queuedPage_keeps by lia.
  - rewrite view_row_keys_layout by (done || lia). by rewrite Hall.
  - apply no_strip. right. lia.
Qed.

Lemma single_page_shows_all_witness :
  totalPages (paginated [idColumn] 10) = 1
  ∧ paginatedData (paginated [idColumn] 10) 1 = idRows 10
  ∧ render (paginated [idColumn] 10) 1
    = (view (paginated [idColumn] 10) 1, 1)
  ∧ view_row_keys (view (paginated [idColumn] 10) 1)
    = (λ row : Row, JS.get row "id") <$> idRows 10
  ∧ view_controls (view (paginated [idColumn] 10) 1) = None.
Proof.
  apply (single_page_shows_all (paginated [idColumn] 10));
    vm_compute; first [reflexivity | discriminate].
Defined.

(** ** Cards on any column list *)

(** X15. Whatever the column list, each column that is highlighted or is
    not headed "Actions" is drawn exactly once in the first two regions of
    a card: the highlighted region and the label/value grid together are a
    rearrangement of those columns, so none is lost and none is doubled. *)
Theorem card_regions_cover_plain_columns (props : DataTableProps) :
  highlightColumns props ++ gridColumns props
  ≡ₚ List.filter (λ col, mobileHighlight col || negb (isActions col))
                 (columns props).
Proof.
  unfold highlightColumns, gridColumns.
  induction (columns props) as [|a l IH]; [done|]. simpl.
  destruct (mobileHighlight a), (isActions a); simpl.
  - by constructor.
  - by constructor.
  - done.
  - rewrite <- Permutation_middle. by constructor.
Qed.

Section SameOnCards.

Context {B : Type}.
Variables (p : Column → bool) (g : Column → B).
Hypothesis Hsame : ∀ a b, sameOnCards a b → p a = p b ∧ g a = g b.

Lemma filter_sameOnCards (l l' : list Column) :
  Forall2 sameOnCards l l' →
  g <$> List.filter p l = g <$> List.filter p l'.
Proof.
  induction 1 as [|a b l l' Hab _ IH]; [done|].
  destruct (Hsame a b Hab) as [Hp Hg].
  cbn [List.filter]. rewrite <- Hp. destruct (p a); [|exact IH].
  rewrite !fmap_cons. by rewrite Hg, IH.
Qed.

Lemma find_sameOnCards (l l' : list Column) :
  Forall2 sameOnCards l l' →
  g <$> List.find p l = g <$> List.find p l'.
Proof.
  induction 1 as [|a b l l' Hab _ IH]; [done|].
  destruct (Hsame a b Hab) as [Hp Hg].
  cbn [List.find]. rewrite <- Hp. destruct (p a); [|exact IH].
  simpl. by rewrite Hg.
Qed.

End SameOnCards.

Lemma getCellContent_sameOnCards (row : Row) (a b : Column) :
  sameOnCards a b → getCellContent row a = getCellContent row b.
Proof. intros (_ & Hacc & _). unfold getCellContent. by rewrite Hacc. Qed.

Lemma isActions_sameOnCards (a b : Column) :
  sameOnCards a b → isActions a = isActions b.
Proof. intros (Hh & _). unfold isActions. by rewrite Hh. Qed.

(** X16. The cards do not read [hideOnMobile] or [className]: replacing
    the columns by columns with the same headers, accessors and highlight
    flags gives the very same cards, so a column kept off narrow screens
    in the grid is still shown on the cards. *)
Theorem cards_ignore_hideOnMobile (props : DataTableProps)
    (cols : list Column) (currentPage : Z) :
  Forall2 sameOnCards (columns props) cols →
  MobileCardView (withColumns cols props) currentPage
  = MobileCardView props currentPage.
Proof.
  intros Hcols. unfold MobileCardView.
  change (paginatedData (withColumns cols props) currentPage)
    with (paginatedData props currentPage).
  apply list_fmap_ext. intros _ row _.
  assert (getCellContent row <$> highlightColumns (withColumns cols props)
          = getCellContent row <$> highlightColumns props) as ->.
  { symmetry. apply filter_sameOnCards; [|done].
    intros a b Hab. split; [apply Hab|].
    by apply getCellContent_sameOnCards. }
  assert ((λ col, (header col, getCellContent row col))
            <$> gridColumns (withColumns cols props)
          = (λ col, (header col, getCellContent row col))
              <$> gridColumns props) as ->.
  { symmetry.
    apply (filter_sameOnCards
             (λ col, negb (mobileHighlight col) && negb (isActions col))
             (λ col, (header col, getCellContent row col))); [|done].
    intros a b Hab.
    rewrite (isActions_sameOnCards a b Hab),
      (getCellContent_sameOnCards row a b Hab).
    destruct Hab as (-> & _ & ->). done. }
  assert (getCellContent row <$> actionsColumn (withColumns cols props)
          = getCellContent row <$> actionsColumn props) as ->.
  { unfold actionsColumn. rewrite !find_guarded. symmetry.
    apply find_sameOnCards; [|done].
    intros a b Hab. split; [by apply isActions_sameOnCards|].
    by apply getCellContent_sameOnCards. }
  done.
Qed.

Lemma cards_ignore_hideOnMobile_witness :
  MobileCardView
    (withColumns [wideIdColumn] (paginated [idColumn] 23)) 3
  = MobileCardView (paginated [idColumn] 23) 3.
Proof.
  apply (cards_ignore_hideOnMobile (paginated [idColumn] 23)
           [wideIdColumn] 3).
  repeat constructor.
Defined.
